(** * Input feature embedders (src/models/input_feature_embedder.py)

    A shallow embedding of [InputFeatureEmbedder] and
    [ProteusFeatureEmbedder]: the two [forward] methods, the module
    constructors, and the tensor operations they use (indexing with
    [None], [+] with broadcasting, and the [Linear] layer).

    Tensor entries are of a type [R] with the operations of a ring.
    The statements that compute with sums assume the ring laws, so
    they are about exact arithmetic; the others hold for any [R].
    Python objects that a callee may mutate (the feature dictionary, the
    mask tensors, module attributes, the random generator) live in a
    world [W] that is threaded through every call. *)

From Stdlib Require Import String ZArith QArith.
From Stdlib Require Import List Arith Lia Bool.
From Stdlib Require Import Ring Ring_theory InitialRing.
From Stdlib Require SpecFloat.
Import ListNotations.
Close Scope Q_scope.
Close Scope Z_scope.
Open Scope nat_scope.

Set Implicit Arguments.

(** ** Scalars *)

Class ScalarOps (R : Type) : Type := {
  rO : R;
  rI : R;
  radd : R -> R -> R;
  rmul : R -> R -> R;
  rsub : R -> R -> R;
  ropp : R -> R
}.

#[export] Instance Z_scalar : ScalarOps Z := {|
  rO := 0%Z; rI := 1%Z;
  radd := Z.add; rmul := Z.mul; rsub := Z.sub; ropp := Z.opp
|}.

(** ** Exceptions and outcomes *)

Inductive exn : Type :=
| RuntimeError                 (* torch: sizes that do not match *)
| IndexError                   (* torch: too many indices for a tensor *)
| OtherError (name : string).  (* anything a collaborator raises *)

Inductive outcome (A : Type) : Type :=
| Ok (a : A)
| Err (e : exn).
Arguments Err {A} e.

(** ** Tensors *)

Module Torch.
Section Tensor.
Context {R : Type} `{ScalarOps R}.

(** A tensor is its size and its entries, read at a multi-index. *)
Record tensor : Type := mkTensor {
shape : list nat;
data : list nat -> R
}.

Definition ndim (t : tensor) : nat := length (shape t).

Fixpoint in_range (s idx : list nat) : Prop :=
match s, idx with
| [], [] => True
| d :: s', i :: idx' => i < d /\ in_range s' idx'
| _, _ => False
end.

(** Two tensors with the same size and the same entries. *)
Definition tensor_eq (a b : tensor) : Prop :=
shape a = shape b /\
forall idx, in_range (shape a) idx -> data a idx = data b idx.

(** *** Indexing with [:] and [None] *)

Inductive index_item : Type :=
| Slice      (* [:] *)
| NewAxis.   (* [None] *)

Definition count_slices (ix : list index_item) : nat :=
length (filter (fun it => match it with Slice => true | NewAxis => false end) ix).

(** Size of [t[ix]]: [:] keeps the next dimension, [None] inserts a
  dimension of size 1, dimensions left over are kept. *)
Fixpoint getitem_shape (ix : list index_item) (s : list nat) : list nat :=
match ix with
| [] => s
| Slice :: ix' =>
    match s with
    | d :: s' => d :: getitem_shape ix' s'
    | [] => []
    end
| NewAxis :: ix' => 1 :: getitem_shape ix' s
end.

(** The index of the source entry that [t[ix]] shows at [idx]. *)
Fixpoint getitem_index (ix : list index_item) (idx : list nat) : list nat :=
match ix with
| [] => idx
| Slice :: ix' =>
    match idx with
    | i :: idx' => i :: getitem_index ix' idx'
    | [] => []
    end
| NewAxis :: ix' => getitem_index ix' (tl idx)
end.

Definition getitem (t : tensor) (ix : list index_item) : outcome tensor :=
if count_slices ix <=? ndim t
then Ok {| shape := getitem_shape ix (shape t);
           data := fun idx => data t (getitem_index ix idx) |}
else Err IndexError.

(** *** Addition with broadcasting *)

(** Sizes are aligned at the last dimension; two aligned dimensions
  agree when they are equal or one of them is 1. *)
Fixpoint broadcast_rev (r1 r2 : list nat) : option (list nat) :=
match r1, r2 with
| [], r => Some r
| r, [] => Some r
| d1 :: r1', d2 :: r2' =>
    match broadcast_rev r1' r2' with
    | None => None
    | Some r =>
        if d1 =? d2 then Some (d1 :: r)
        else if d1 =? 1 then Some (d2 :: r)
        else if d2 =? 1 then Some (d1 :: r)
        else None
    end
end.

Definition broadcast_shapes (s1 s2 : list nat) : option (list nat) :=
option_map (@rev nat) (broadcast_rev (rev s1) (rev s2)).

Fixpoint clamp (s idx : list nat) : list nat :=
match s, idx with
| d :: s', i :: idx' => (if d =? 1 then 0 else i) :: clamp s' idx'
| _, _ => []
end.

(** The index at which an operand of size [s] is read for the entry
  [idx] of the broadcast result. *)
Definition broadcast_index (s idx : list nat) : list nat :=
clamp s (skipn (length idx - length s) idx).

(** The entry of [t] that broadcasting places at [idx]. *)
Definition bget (t : tensor) (idx : list nat) : R :=
data t (broadcast_index (shape t) idx).

Definition tensor_add (a b : tensor) : outcome tensor :=
match broadcast_shapes (shape a) (shape b) with
| Some s => Ok {| shape := s;
                  data := fun idx => radd (bget a idx) (bget b idx) |}
| None => Err RuntimeError
end.

End Tensor.
Arguments tensor R : clear implicits.
End Torch.
Export Torch.

(** ** The [Linear] layer *)

Module Primitives.
Section Linear.
Context {R : Type} `{ScalarOps R}.

(** Modelled from the spec: [src.models.components.primitives.Linear]
  is not among the sources.  The spec gives it as a deterministic
  affine transform of the last dimension of any input tensor, with
  an optional bias term and no state beyond the learned weights; it
  fails only when the size of that dimension does not match. *)
Record Linear : Type := mkLinear {
in_features : nat;
out_features : nat;
weight : tensor R;            (* [out_features, in_features] *)
bias : option (tensor R)      (* [out_features], or absent *)
}.

(** [Linear(c_in, c_out, bias=use_bias)], with the values [w] and [b]
  the parameters start from. *)
Definition Linear_init (c_in c_out : nat) (use_bias : bool)
  (w b : list nat -> R) : Linear :=
{| in_features := c_in;
   out_features := c_out;
   weight := mkTensor [c_out; c_in] w;
   bias := if use_bias then Some (mkTensor [c_out] b) else None |}.

(** [sum_{k < n} x k * w k], accumulated from [k = 0]. *)
Definition dot (n : nat) (x w : nat -> R) : R :=
fold_left (fun acc k => radd acc (rmul (x k) (w k))) (seq 0 n) rO.

Definition Linear_apply (l : Linear) (x : tensor R) : tensor R :=
{| shape := removelast (shape x) ++ [out_features l];
   data := fun idx =>
     let pre := removelast idx in
     let o := last idx 0 in
     let y := dot (in_features l)
                  (fun k => data x (pre ++ [k]))
                  (fun k => data (weight l) [o; k]) in
     match bias l with
     | Some b => radd y (data b [o])
     | None => y
     end |}.

Definition Linear_forward (l : Linear) (x : tensor R) : outcome (tensor R) :=
match rev (shape x) with
| d :: _ => if d =? in_features l then Ok (Linear_apply l x)
            else Err RuntimeError
| [] => Err RuntimeError
end.

End Linear.
Arguments Linear R : clear implicits.
End Primitives.
Export Primitives.

(** ** Calls that read and change the world *)

Definition M (W A : Type) : Type := W -> outcome A * W.

Definition ret {W A} (a : A) : M W A := fun w => (Ok a, w).

Definition bind {W A B} (m : M W A) (k : A -> M W B) : M W B :=
  fun w =>
    match m w with
    | (Ok a, w') => k a w'
    | (Err e, w') => (Err e, w')
    end.

(** A tensor operation: it raises or returns, and changes nothing. *)
Definition lift {W A} (o : outcome A) : M W A := fun w => (o, w).

(** Reading the attribute [f] of the module object [self]. *)
Definition attr {W S A} (self : W -> S) (f : S -> A) : M W A :=
  fun w => (Ok (f (self w)), w).

Declare Scope py_scope.
Delimit Scope py_scope with py.
Notation "x <- c1 ;; c2" := (bind c1 (fun x => c2))
  (at level 61, c1 at next level, right associativity) : py_scope.

(** An argument with a default value: [None] is an omitted argument. *)
Definition bind_arg {A} (default : A) (arg : option A) : A :=
  match arg with
  | Some a => a
  | None => default
  end.

(** ** Collaborators *)

(** [src.models.components.atom_attention.AtomAttentionEncoder] is not
    among the sources: the module object is the keyword arguments it is
    constructed with. *)
Module AtomAttentionEncoder.
Record t : Type := mk {
  n_tokens : nat;
  c_token : nat;
  c_atom : nat;
  c_atompair : nat;
  c_trunk_pair : nat;
  num_blocks : nat;
  num_heads : nat;
  dropout : Q;
  n_queries : nat;
  n_keys : nat;
  trunk_conditioning : bool;
  device : option string;
  dtype : option string
}.
End AtomAttentionEncoder.

(** [src.diffusion.conditioning.RelativePositionEncoding] is not among
    the sources: the module object is its constructor argument. *)
Module RelativePositionEncoding.
Record t : Type := mk { c_pair : nat }.
End RelativePositionEncoding.

(** What the embedders run against: the world of Python objects, the
    references a caller passes in, and the [forward] methods of the two
    collaborators, which may read and change the world and may raise. *)
Class Collaborators (R : Type) : Type := {
  W : Type;
  Features : Type;     (* the dictionary [features] *)
  Mask : Type;         (* a mask tensor *)
  AtomAttentionEncoderOutput : Type;
  token_single : AtomAttentionEncoderOutput -> tensor R;
  AtomAttentionEncoder_forward :
    AtomAttentionEncoder.t -> Features -> option Mask ->
    M W AtomAttentionEncoderOutput;
  RelativePositionEncoding_forward :
    RelativePositionEncoding.t -> Features -> option Mask ->
    M W (tensor R)
}.

(** ** [InputFeatureEmbedder] *)

Module InputFeatureEmbedder.

Record t : Type := mk {
  n_tokens : nat;
  num_blocks : nat;
  c_token : nat;
  c_atom : nat;
  c_atompair : nat;
  c_trunk_pair : nat;
  num_heads : nat;
  dropout : Q;
  n_queries : nat;
  n_keys : nat;
  device : option string;
  dtype : option string;
  encoder : AtomAttentionEncoder.t
}.

Definition __init__ (n_tokens c_token c_atom c_atompair c_trunk_pair
    num_blocks num_heads : nat) (dropout : Q) (n_queries n_keys : nat)
    (device dtype : option string) : t :=
  {| n_tokens := n_tokens;
     num_blocks := num_blocks;
     c_token := c_token;
     c_atom := c_atom;
     c_atompair := c_atompair;
     c_trunk_pair := c_trunk_pair;
     num_heads := num_heads;
     dropout := dropout;
     n_queries := n_queries;
     n_keys := n_keys;
     device := device;
     dtype := dtype;
     encoder :=
       {| AtomAttentionEncoder.n_tokens := n_tokens;
          AtomAttentionEncoder.c_token := c_token;
          AtomAttentionEncoder.c_atom := c_atom;
          AtomAttentionEncoder.c_atompair := c_atompair;
          AtomAttentionEncoder.c_trunk_pair := c_trunk_pair;
          AtomAttentionEncoder.num_blocks := num_blocks;
          AtomAttentionEncoder.num_heads := num_heads;
          AtomAttentionEncoder.dropout := dropout;
          AtomAttentionEncoder.n_queries := n_queries;
          AtomAttentionEncoder.n_keys := n_keys;
          AtomAttentionEncoder.trunk_conditioning := false;
          AtomAttentionEncoder.device := device;
          AtomAttentionEncoder.dtype := dtype |} |}.

(** The constructor as it is called: omitted arguments take the
    defaults of the signature. *)
Definition new (n_tokens : nat)
    (c_token c_atom c_atompair c_trunk_pair num_blocks num_heads : option nat)
    (dropout : option Q) (n_queries n_keys : option nat)
    (device dtype : option (option string)) : t :=
  __init__ n_tokens
    (bind_arg 384 c_token) (bind_arg 128 c_atom) (bind_arg 16 c_atompair)
    (bind_arg 16 c_trunk_pair) (bind_arg 3 num_blocks) (bind_arg 4 num_heads)
    (bind_arg 0%Q dropout) (bind_arg 32 n_queries) (bind_arg 128 n_keys)
    (bind_arg None device) (bind_arg None dtype).

Section Forward.
Context {R : Type} `{Collaborators R}.

Definition forward (self : W -> t) (features : Features)
    (mask : option Mask) : M W (tensor R) :=
  (encoder_ <- attr self encoder ;;
   output <- AtomAttentionEncoder_forward encoder_ features mask ;;
   let per_token_features := token_single output in
   ret per_token_features)%py.

(** [self(features, mask)] with [mask] possibly omitted. *)
Definition call (self : W -> t) (features : Features)
    (mask : option (option Mask)) : M W (tensor R) :=
  forward self features (bind_arg None mask).
End Forward.

End InputFeatureEmbedder.

(** ** [ProteusFeatures] and [ProteusFeatureEmbedder] *)

Record ProteusFeatures (R : Type) : Type := mkProteusFeatures {
  s_inputs : tensor R;
  s_trunk : tensor R;
  z_trunk : tensor R
}.

Module ProteusFeatureEmbedder.

Record t (R : Type) : Type := mk {
  n_tokens : nat;
  num_blocks : nat;
  c_token : nat;
  c_atom : nat;
  c_atompair : nat;
  c_trunk_pair : nat;
  num_heads : nat;
  dropout : Q;
  n_queries : nat;
  n_keys : nat;
  device : option string;
  dtype : option string;
  input_feature_embedder : InputFeatureEmbedder.t;
  linear_s_init : Linear R;
  linear_z_col : Linear R;
  linear_z_row : Linear R;
  relative_pos_encoder : RelativePositionEncoding.t
}.

Section Init.
Context {R : Type} `{ScalarOps R}.

(** [w_s], [w_col] and [w_row] are the values the weights of the
    three [Linear] layers hold. *)
Definition __init__ (n_tokens c_token c_atom c_atompair c_trunk_pair
    num_blocks num_heads : nat) (dropout : Q) (n_queries n_keys : nat)
    (device dtype : option string)
    (w_s w_col w_row : list nat -> R) : t R :=
  {| n_tokens := n_tokens;
     num_blocks := num_blocks;
     c_token := c_token;
     c_atom := c_atom;
     c_atompair := c_atompair;
     c_trunk_pair := c_trunk_pair;
     num_heads := num_heads;
     dropout := dropout;
     n_queries := n_queries;
     n_keys := n_keys;
     device := device;
     dtype := dtype;
     input_feature_embedder :=
       InputFeatureEmbedder.__init__ n_tokens c_token c_atom c_atompair
         c_trunk_pair num_blocks num_heads dropout n_queries n_keys
         device dtype;
     linear_s_init := Linear_init c_token c_token false w_s (fun _ => rO);
     linear_z_col := Linear_init c_token c_trunk_pair false w_col (fun _ => rO);
     linear_z_row := Linear_init c_token c_trunk_pair false w_row (fun _ => rO);
     relative_pos_encoder := RelativePositionEncoding.mk c_trunk_pair |}.

Definition new (n_tokens : nat)
    (c_token c_atom c_atompair c_trunk_pair num_blocks num_heads : option nat)
    (dropout : option Q) (n_queries n_keys : option nat)
    (device dtype : option (option string))
    (w_s w_col w_row : list nat -> R) : t R :=
  __init__ n_tokens
    (bind_arg 384 c_token) (bind_arg 128 c_atom) (bind_arg 16 c_atompair)
    (bind_arg 16 c_trunk_pair) (bind_arg 3 num_blocks) (bind_arg 4 num_heads)
    (bind_arg 0%Q dropout) (bind_arg 32 n_queries) (bind_arg 128 n_keys)
    (bind_arg None device) (bind_arg None dtype) w_s w_col w_row.
End Init.

Section Forward.
Context {R : Type} `{ScalarOps R} `{Collaborators R}.

Definition forward (self : W -> t R) (features : Features)
    (atom_mask token_mask : option Mask) : M W (ProteusFeatures R) :=
  (per_token_features <-
     InputFeatureEmbedder.forward
       (fun w => input_feature_embedder (self w)) features atom_mask ;;
   linear_s_init_ <- attr self (@linear_s_init R) ;;
   s_trunk <- lift (Linear_forward linear_s_init_ per_token_features) ;;
   linear_z_col_ <- attr self (@linear_z_col R) ;;
   col_in <- lift (getitem per_token_features [Slice; Slice; NewAxis; Slice]) ;;
   col <- lift (Linear_forward linear_z_col_ col_in) ;;
   linear_z_row_ <- attr self (@linear_z_row R) ;;
   row_in <- lift (getitem per_token_features [Slice; NewAxis; Slice; Slice]) ;;
   row <- lift (Linear_forward linear_z_row_ row_in) ;;
   z_trunk <- lift (tensor_add col row) ;;
   relative_pos_encoder_ <- attr self (@relative_pos_encoder R) ;;
   rel <- RelativePositionEncoding_forward relative_pos_encoder_
            features token_mask ;;
   z_trunk <- lift (tensor_add z_trunk rel) ;;
   ret {| s_inputs := per_token_features;
          s_trunk := s_trunk;
          z_trunk := z_trunk |})%py.

(** [self(features, atom_mask, token_mask)] with the masks possibly
    omitted. *)
Definition call (self : W -> t R) (features : Features)
    (atom_mask token_mask : option (option Mask))
    : M W (ProteusFeatures R) :=
  forward self features (bind_arg None atom_mask) (bind_arg None token_mask).
End Forward.

End ProteusFeatureEmbedder.

(** ** Vocabulary of the statements *)

(** The inner module of [self], as [forward] reads it. *)
Abbreviation ife_of self :=
  (fun w => ProteusFeatureEmbedder.input_feature_embedder (self w)).

Section Vocabulary.
Context {R : Type} `{ScalarOps R} `{Collaborators R}.

(** Entry [o] of the projection by [l] of token [i] of batch element
    [b] of the per-token tensor [p]. *)
Definition proj (l : Linear R) (p : tensor R) (b i o : nat) : R :=
  data (Linear_apply l p) [b; i; o].

(** The module is as the constructor builds it, for some weights. *)
Definition constructed (m : ProteusFeatureEmbedder.t R) : Prop :=
  exists w_s w_col w_row,
    m = ProteusFeatureEmbedder.__init__
          (ProteusFeatureEmbedder.n_tokens m)
          (ProteusFeatureEmbedder.c_token m)
          (ProteusFeatureEmbedder.c_atom m)
          (ProteusFeatureEmbedder.c_atompair m)
          (ProteusFeatureEmbedder.c_trunk_pair m)
          (ProteusFeatureEmbedder.num_blocks m)
          (ProteusFeatureEmbedder.num_heads m)
          (ProteusFeatureEmbedder.dropout m)
          (ProteusFeatureEmbedder.n_queries m)
          (ProteusFeatureEmbedder.n_keys m)
          (ProteusFeatureEmbedder.device m)
          (ProteusFeatureEmbedder.dtype m)
          w_s w_col w_row.

Definition input_constructed (m : InputFeatureEmbedder.t) : Prop :=
  m = InputFeatureEmbedder.__init__
        (InputFeatureEmbedder.n_tokens m)
        (InputFeatureEmbedder.c_token m)
        (InputFeatureEmbedder.c_atom m)
        (InputFeatureEmbedder.c_atompair m)
        (InputFeatureEmbedder.c_trunk_pair m)
        (InputFeatureEmbedder.num_blocks m)
        (InputFeatureEmbedder.num_heads m)
        (InputFeatureEmbedder.dropout m)
        (InputFeatureEmbedder.n_queries m)
        (InputFeatureEmbedder.n_keys m)
        (InputFeatureEmbedder.device m)
        (InputFeatureEmbedder.dtype m).

(** In a call of [ProteusFeatureEmbedder.forward] from the world [w],
    the encoder returns [output] and leaves the world [w1], and the
    relative position encoder then returns [rel] and leaves [w2]. *)
Definition collaborators_return (self : W -> ProteusFeatureEmbedder.t R)
    (features : Features) (atom_mask token_mask : option Mask)
    (w : W) (output : AtomAttentionEncoderOutput) (w1 : W)
    (rel : tensor R) (w2 : W) : Prop :=
  AtomAttentionEncoder_forward
    (InputFeatureEmbedder.encoder
       (ProteusFeatureEmbedder.input_feature_embedder (self w)))
    features atom_mask w = (Ok output, w1) /\
  RelativePositionEncoding_forward
    (ProteusFeatureEmbedder.relative_pos_encoder (self w1))
    features token_mask w1 = (Ok rel, w2).

(** Two aligned dimensions that broadcasting accepts. *)
Definition compatible (d1 d2 : nat) : bool :=
  (d1 =? d2) || (d1 =? 1) || (d2 =? 1).

End Vocabulary.

(** ** A small world *)

(** Scalars are integers; the world holds the module, the two tensors
    the collaborators compute from the features, and the state of the
    random generator, which every collaborator call advances. *)
Module Example.

Record world : Type := mkWorld {
  module_ : ProteusFeatureEmbedder.t Z;
  tokens : tensor Z;
  pair_bias : tensor Z;
  rng : nat
}.

Definition advance (w : world) : world :=
  {| module_ := module_ w; tokens := tokens w;
     pair_bias := pair_bias w; rng := S (rng w) |}.

Definition collaborators : Collaborators Z :=
  {| W := world;
     Features := unit;
     Mask := unit;
     AtomAttentionEncoderOutput := tensor Z;
     token_single := fun t => t;
     AtomAttentionEncoder_forward := fun _ _ _ w => (Ok (tokens w), advance w);
     RelativePositionEncoding_forward := fun _ _ _ w => (Ok (pair_bias w), advance w) |}.

Definition w_s (idx : list nat) : Z :=
  match idx with
  | [o; k] => if o =? k then 1%Z else 0%Z
  | _ => 0%Z
  end.

Definition w_col (idx : list nat) : Z :=
  match idx with
  | [_; k] => Z.of_nat (k + 1)
  | _ => 0%Z
  end.

Definition w_row (idx : list nat) : Z :=
  match idx with
  | [_; k] => (10 * Z.of_nat (k + 1))%Z
  | _ => 0%Z
  end.

(** Two tokens of width 2, one trunk pair channel. *)
Definition small : ProteusFeatureEmbedder.t Z :=
  ProteusFeatureEmbedder.new 2 (Some 2) None None (Some 1) None None
    None None None None None w_s w_col w_row.

(** [[[1, 2], [3, 4]]] *)
Definition two_tokens : tensor Z :=
  {| shape := [1; 2; 2];
     data := fun idx =>
       match idx with
       | [_; i; k] => Z.of_nat (1 + 2 * i + k)
       | _ => 0%Z
       end |}.

Definition bias_of (s : list nat) (f : nat -> nat -> Z) : tensor Z :=
  {| shape := s;
     data := fun idx =>
       match idx with
       | [_; i; j; _] => f i j
       | _ => 0%Z
       end |}.

Definition w_full : world :=
  mkWorld small two_tokens
    (bias_of [1; 2; 2; 1] (fun i j => Z.of_nat (100 * (i + 1) + j))) 0.

Definition w_zero : world :=
  mkWorld small two_tokens {| shape := [1; 2; 2; 1]; data := fun _ => 0%Z |} 0.

(** A bias for one token where the pair tensor has two. *)
Definition w_one_token_bias : world :=
  mkWorld small two_tokens (bias_of [1; 1; 1; 1] (fun _ _ => 7%Z)) 0.

(** A bias for three tokens where the pair tensor has two. *)
Definition w_three_token_bias : world :=
  mkWorld small two_tokens (bias_of [1; 3; 3; 1] (fun _ _ => 7%Z)) 0.

(** The module with every default of the constructor. *)
Definition by_default : ProteusFeatureEmbedder.t Z :=
  ProteusFeatureEmbedder.new 2 None None None None None None
    None None None None None w_s w_col w_row.

Definition w_default : world :=
  mkWorld by_default
    {| shape := [1; 2; 384]; data := fun _ => 1%Z |}
    (bias_of [1; 2; 2; 16] (fun _ _ => 0%Z)) 0.

(** The two methods on the module of the world, called with the
    features and no mask. *)
Definition run (w : world) : outcome (ProteusFeatures Z) * world :=
  @ProteusFeatureEmbedder.forward Z Z_scalar collaborators
    module_ tt None None w.

Definition run_input (w : world) : outcome (tensor Z) * world :=
  @InputFeatureEmbedder.forward Z collaborators (ife_of module_) tt None w.

End Example.

(** ** More worlds *)

(** Worlds for the ways a call can go wrong, and for tensors of other
    sizes than the small world holds. *)
Module Cases.

(** Collaborators that raise when told to, and otherwise answer as in
    the small world. *)
Definition raising (enc rel : option exn) : Collaborators Z :=
  {| W := Example.world;
     Features := unit;
     Mask := unit;
     AtomAttentionEncoderOutput := tensor Z;
     token_single := fun t => t;
     AtomAttentionEncoder_forward := fun _ _ _ w =>
       match enc with
       | Some e => (Err e, Example.advance w)
       | None => (Ok (Example.tokens w), Example.advance w)
       end;
     RelativePositionEncoding_forward := fun _ _ _ w =>
       match rel with
       | Some e => (Err e, Example.advance w)
       | None => (Ok (Example.pair_bias w), Example.advance w)
       end |}.

Definition run_raising (enc rel : option exn) (w : Example.world)
    : outcome (ProteusFeatures Z) * Example.world :=
  @ProteusFeatureEmbedder.forward Z Z_scalar (raising enc rel)
    Example.module_ tt None None w.

Definition entries (f : nat -> nat -> Z) (idx : list nat) : Z :=
  match idx with
  | [_; i; k] => f i k
  | _ => 0%Z
  end.

(** A per-token tensor without a batch dimension: [[1, 2], [3, 4]]. *)
Definition flat_tokens : tensor Z :=
  {| shape := [2; 2];
     data := fun idx =>
       match idx with
       | [i; k] => Z.of_nat (1 + 2 * i + k)
       | _ => 0%Z
       end |}.

(** Tokens of width 3 for a module of width 2. *)
Definition wide_tokens : tensor Z :=
  {| shape := [1; 2; 3]; data := entries (fun i k => Z.of_nat (i + k)) |}.


Definition zero_tokens : tensor Z :=
  {| shape := [1; 2; 2]; data := fun _ => 0%Z |}.

(** The tokens of the small world with another second token:
    [[[1, 2], [30, 40]]]. *)
Definition other_tokens : tensor Z :=
  {| shape := [1; 2; 2];
     data := entries (fun i k =>
       if i =? 0 then Z.of_nat (1 + k) else Z.of_nat (30 + 10 * k)) |}.

Definition full_bias : tensor Z :=
  Example.bias_of [1; 2; 2; 1] (fun i j => Z.of_nat (100 * (i + 1) + j)).

Definition w_flat : Example.world :=
  Example.mkWorld Example.small flat_tokens full_bias 0.

Definition w_wide : Example.world :=
  Example.mkWorld Example.small wide_tokens full_bias 0.


Definition w_zero_tokens : Example.world :=
  Example.mkWorld Example.small zero_tokens full_bias 0.

Definition w_other : Example.world :=
  Example.mkWorld Example.small other_tokens full_bias 0.

(** A bias that is not an outer sum: entry [i, j] is [i * j]. *)
Definition w_product : Example.world :=
  Example.mkWorld Example.small Example.two_tokens
    (Example.bias_of [1; 2; 2; 1] (fun i j => Z.of_nat (i * j))) 0.

(** A bias of channel width 3 for the small module, whose trunk pair
    width is 1. *)
Definition w_wide_bias : Example.world :=
  Example.mkWorld Example.small Example.two_tokens
    {| shape := [1; 2; 2; 3]; data := fun _ => 7%Z |} 0.

End Cases.

(** ** Single precision *)

(** Scalars as IEEE 754 binary32 numbers, rounded to nearest even
    after every operation, and the small module over them. *)
Module Binary32.

Definition prec : Z := 24.
Definition emax : Z := 128.

Definition of_Z (z : Z) : SpecFloat.spec_float :=
  SpecFloat.binary_normalize prec emax z 0 false.

Definition scalar : ScalarOps SpecFloat.spec_float :=
  {| rO := SpecFloat.S754_zero false;
     rI := of_Z 1;
     radd := SpecFloat.SFadd prec emax;
     rmul := SpecFloat.SFmul prec emax;
     rsub := SpecFloat.SFsub prec emax;
     ropp := SpecFloat.SFopp |}.

Record world : Type := mkWorld {
  module_ : ProteusFeatureEmbedder.t SpecFloat.spec_float;
  tokens : tensor SpecFloat.spec_float;
  pair_bias : tensor SpecFloat.spec_float
}.

Definition collaborators : Collaborators SpecFloat.spec_float :=
  {| W := world;
     Features := unit;
     Mask := unit;
     AtomAttentionEncoderOutput := tensor SpecFloat.spec_float;
     token_single := fun t => t;
     AtomAttentionEncoder_forward := fun _ _ _ w => (Ok (tokens w), w);
     RelativePositionEncoding_forward := fun _ _ _ w => (Ok (pair_bias w), w) |}.

(** The small module, with the same weights: [linear_z_col] is
    [[1, 2]] and [linear_z_row] is [[10, 20]]. *)
Definition small : ProteusFeatureEmbedder.t SpecFloat.spec_float :=
  @ProteusFeatureEmbedder.new SpecFloat.spec_float scalar
    2 (Some 2) None None (Some 1) None None None None None None None
    (fun idx => of_Z (Example.w_s idx))
    (fun idx => of_Z (Example.w_col idx))
    (fun idx => of_Z (Example.w_row idx)).

(** [[[1, 0], [2^24, 0]]] *)
Definition large_tokens : tensor SpecFloat.spec_float :=
  {| shape := [1; 2; 2];
     data := fun idx =>
       match idx with
       | [_; 0; 0] => of_Z 1
       | [_; 1; 0] => of_Z 16777216
       | _ => of_Z 0
       end |}.

Definition zero_bias : tensor SpecFloat.spec_float :=
  {| shape := [1; 2; 2; 1]; data := fun _ => SpecFloat.S754_zero false |}.

Definition w_large : world := mkWorld small large_tokens zero_bias.

Definition run (w : world)
    : outcome (ProteusFeatures SpecFloat.spec_float) * world :=
  @ProteusFeatureEmbedder.forward SpecFloat.spec_float scalar collaborators
    module_ tt None None w.

End Binary32.

(** * Properties *)

Section ScalarFacts.
Context {R : Type} `{ScalarOps R}.
Hypothesis Rth : ring_theory rO rI radd rmul rsub ropp (@eq R).
Add Ring scalars : Rth.

Lemma radd_0_r (x : R) : radd x rO = x.
Proof. ring. Qed.

(** The term shared by two sums cancels in their difference. *)
Lemma rsub_cancel (a d c r : R) :
  rsub (radd (radd a c) r) (radd (radd d c) r) = rsub a d.
Proof. ring. Qed.

End ScalarFacts.

Section TensorFacts.
Context {R : Type} `{ScalarOps R}.

Lemma in_range_length (s idx : list nat) :
  in_range s idx -> length idx = length s.
Proof.
  revert idx; induction s as [|d s IH]; intros [|i idx]; simpl; try tauto.
  intros [_ Hr]. f_equal. now apply IH.
Qed.

Lemma clamp_in_range (s idx : list nat) :
  in_range s idx -> clamp s idx = idx.
Proof.
  revert idx; induction s as [|d s IH]; intros [|i idx]; simpl; try tauto.
  intros [Hi Hr]. rewrite (IH _ Hr).
  destruct (Nat.eqb_spec d 1) as [->|_]; [|reflexivity].
  f_equal. lia.
Qed.

Lemma broadcast_index_in_range (s idx : list nat) :
  in_range s idx -> broadcast_index s idx = idx.
Proof.
  intros Hr. unfold broadcast_index.
  rewrite (in_range_length _ _ Hr), Nat.sub_diag. simpl.
  now apply clamp_in_range.
Qed.

Lemma bget_in_range (t : tensor R) (idx : list nat) :
  in_range (shape t) idx -> bget t idx = data t idx.
Proof.
  intros Hr. unfold bget. now rewrite broadcast_index_in_range.
Qed.

Lemma pick_in_range (d i : nat) : i < d -> (if d =? 1 then 0 else i) = i.
Proof. intros Hi. destruct (Nat.eqb_spec d 1); lia. Qed.



Lemma broadcast_outer (bs n c : nat) :
  broadcast_shapes [bs; n; 1; c] [bs; 1; n; c] = Some [bs; n; n; c].
Proof.
  unfold broadcast_shapes.
  destruct n as [|[|n]]; simpl; now rewrite !Nat.eqb_refl.
Qed.


Lemma Linear_forward_ok (l : Linear R) (x : tensor R) (pre : list nat) :
  shape x = pre ++ [in_features l] ->
  Linear_forward l x = Ok (Linear_apply l x).
Proof.
  intros E. unfold Linear_forward.
  rewrite E, rev_app_distr. simpl. now rewrite Nat.eqb_refl.
Qed.


(** The outer sum of the two pair projections of [p]. *)
Lemma outer_sum_ok (lc lr : Linear R) (p : tensor R) (bs n ct cp : nat) :
  shape p = [bs; n; ct] ->
  in_features lc = ct -> in_features lr = ct ->
  out_features lc = cp -> out_features lr = cp ->
  exists ci ri zz,
    getitem p [Slice; Slice; NewAxis; Slice] = Ok ci /\
    Linear_forward lc ci = Ok (Linear_apply lc ci) /\
    getitem p [Slice; NewAxis; Slice; Slice] = Ok ri /\
    Linear_forward lr ri = Ok (Linear_apply lr ri) /\
    tensor_add (Linear_apply lc ci) (Linear_apply lr ri) = Ok zz /\
    shape zz = [bs; n; n; cp] /\
    forall b i j o, b < bs -> i < n -> j < n -> o < cp ->
      data zz [b; i; j; o] =
      radd (data (Linear_apply lc p) [b; i; o])
           (data (Linear_apply lr p) [b; j; o]).
Proof.
  intros Hp Hc Hr Hoc Hor.
  pose (ci := {| shape := [bs; n; 1; ct];
                 data := fun idx => data p (getitem_index [Slice; Slice; NewAxis; Slice] idx) |}).
  pose (ri := {| shape := [bs; 1; n; ct];
                 data := fun idx => data p (getitem_index [Slice; NewAxis; Slice; Slice] idx) |}).
  assert (Eci : getitem p [Slice; Slice; NewAxis; Slice] = Ok ci)
    by (unfold getitem, ndim; rewrite Hp; reflexivity).
  assert (Eri : getitem p [Slice; NewAxis; Slice; Slice] = Ok ri)
    by (unfold getitem, ndim; rewrite Hp; reflexivity).
  assert (Sc : shape (Linear_apply lc ci) = [bs; n; 1; cp])
    by (simpl; now rewrite Hoc).
  assert (Sr : shape (Linear_apply lr ri) = [bs; 1; n; cp])
    by (simpl; now rewrite Hor).
  exists ci, ri.
  unfold tensor_add. rewrite Sc, Sr, broadcast_outer.
  eexists. repeat split; try assumption.
  - apply Linear_forward_ok with (pre := [bs; n; 1]). simpl. now rewrite Hc.
  - apply Linear_forward_ok with (pre := [bs; 1; n]). simpl. now rewrite Hr.
  - intros b i j o Hb Hi Hj Ho.
    cbn [data]. unfold bget. rewrite Sc, Sr.
    unfold broadcast_index. cbn [length Nat.sub skipn clamp].
    rewrite ?(pick_in_range Hb), ?(pick_in_range Hi),
      ?(pick_in_range Hj), ?(pick_in_range Ho).
    reflexivity.
Qed.

(** The same outer sum, written as the projections of [p] indexed
    with [None]. *)
Lemma projections_outer_sum (lc lr : Linear R) (p : tensor R) (bs n ct cp : nat) :
  shape p = [bs; n; ct] ->
  out_features lc = cp -> out_features lr = cp ->
  exists a b outer,
    getitem (Linear_apply lc p) [Slice; Slice; NewAxis; Slice] = Ok a /\
    getitem (Linear_apply lr p) [Slice; NewAxis; Slice; Slice] = Ok b /\
    tensor_add a b = Ok outer /\
    shape outer = [bs; n; n; cp] /\
    forall b i j o, b < bs -> i < n -> j < n -> o < cp ->
      data outer [b; i; j; o] = radd (proj lc p b i o) (proj lr p b j o).
Proof.
  intros Hp Hoc Hor.
  pose (a := {| shape := [bs; n; 1; cp];
                data := fun idx =>
                  data (Linear_apply lc p)
                       (getitem_index [Slice; Slice; NewAxis; Slice] idx) |}).
  pose (b := {| shape := [bs; 1; n; cp];
                data := fun idx =>
                  data (Linear_apply lr p)
                       (getitem_index [Slice; NewAxis; Slice; Slice] idx) |}).
  exists a, b.
  assert (Ea : getitem (Linear_apply lc p) [Slice; Slice; NewAxis; Slice] = Ok a).
  { unfold getitem, ndim. cbn [shape Linear_apply]. rewrite Hp, Hoc. reflexivity. }
  assert (Eb : getitem (Linear_apply lr p) [Slice; NewAxis; Slice; Slice] = Ok b).
  { unfold getitem, ndim. cbn [shape Linear_apply]. rewrite Hp, Hor. reflexivity. }
  unfold tensor_add. cbn [shape a b]. rewrite broadcast_outer.
  eexists. repeat split; try assumption.
  intros x i j o Hx Hi Hj Ho.
  cbn [data]. unfold bget. cbn [shape a b].
  unfold broadcast_index. cbn [length Nat.sub skipn clamp].
  rewrite ?(pick_in_range Hx), ?(pick_in_range Hi),
    ?(pick_in_range Hj), ?(pick_in_range Ho).
  reflexivity.
Qed.

End TensorFacts.

Section BroadcastFacts.

(** The last dimension of a broadcast size: the one of the first
    operand, unless that is 1 and the second operand has one. *)
Lemma broadcast_last (s1 s2 s : list nat) (c : nat) :
  broadcast_shapes (s1 ++ [c]) s2 = Some s ->
  last s 0 = if c =? 1 then last s2 1 else c.
Proof.
  unfold broadcast_shapes. rewrite rev_app_distr. simpl.
  destruct (rev s2) as [|d r2] eqn:E.
  - assert (E2 : s2 = []).
    { rewrite <- (rev_involutive s2), E. reflexivity. }
    subst s2. simpl. intros Es. injection Es as <-.
    rewrite rev_involutive, last_last.
    destruct (Nat.eqb_spec c 1); congruence.
  - assert (E2 : s2 = rev r2 ++ [d]).
    { rewrite <- (rev_involutive s2), E. reflexivity. }
    rewrite E2, last_last.
    destruct (broadcast_rev (rev s1) r2) as [r|]; [|discriminate].
    destruct (Nat.eqb_spec c d) as [->|Hcd].
    + simpl. intros Es. injection Es as <-. rewrite last_last.
      destruct (Nat.eqb_spec d 1); congruence.
    + destruct (Nat.eqb_spec c 1) as [->|Hc1].
      * simpl. intros Es. injection Es as <-. now rewrite last_last.
      * destruct (Nat.eqb_spec d 1); [|discriminate].
        simpl. intros Es. injection Es as <-. now rewrite last_last.
Qed.

Lemma broadcast_four (a1 a2 a3 a4 b1 b2 b3 b4 : nat) :
  broadcast_shapes [a1; a2; a3; a4] [b1; b2; b3; b4] = None <->
  compatible a1 b1 && compatible a2 b2 && compatible a3 b3 && compatible a4 b4
  = false.
Proof.
  unfold broadcast_shapes, compatible. simpl.
  destruct (a1 =? b1), (a1 =? 1), (b1 =? 1),
           (a2 =? b2), (a2 =? 1), (b2 =? 1),
           (a3 =? b3), (a3 =? 1), (b3 =? 1),
           (a4 =? b4), (a4 =? 1), (b4 =? 1); simpl; split; congruence.
Qed.

End BroadcastFacts.

Section EmbedderFacts.
Context {R : Type} `{ScalarOps R} `{Collaborators R}.

Lemma input_forward_eq (self : W -> InputFeatureEmbedder.t)
    (features : Features) (mask : option Mask) (w : W) :
  InputFeatureEmbedder.forward self features mask w =
  (let (r, w1) := AtomAttentionEncoder_forward
                    (InputFeatureEmbedder.encoder (self w)) features mask w in
   (match r with
    | Ok output => Ok (token_single output)
    | Err e => Err e
    end, w1)).
Proof.
  unfold InputFeatureEmbedder.forward, bind, attr, ret.
  destruct (AtomAttentionEncoder_forward _ features mask w) as [[o|e] w1];
    reflexivity.
Qed.

Lemma constructed_layers (m : ProteusFeatureEmbedder.t R) :
  constructed m ->
  let ct := ProteusFeatureEmbedder.c_token m in
  let cp := ProteusFeatureEmbedder.c_trunk_pair m in
  (in_features (ProteusFeatureEmbedder.linear_s_init m) = ct /\
   out_features (ProteusFeatureEmbedder.linear_s_init m) = ct /\
   bias (ProteusFeatureEmbedder.linear_s_init m) = None) /\
  (in_features (ProteusFeatureEmbedder.linear_z_col m) = ct /\
   out_features (ProteusFeatureEmbedder.linear_z_col m) = cp /\
   bias (ProteusFeatureEmbedder.linear_z_col m) = None) /\
  (in_features (ProteusFeatureEmbedder.linear_z_row m) = ct /\
   out_features (ProteusFeatureEmbedder.linear_z_row m) = cp /\
   bias (ProteusFeatureEmbedder.linear_z_row m) = None) /\
  RelativePositionEncoding.c_pair
    (ProteusFeatureEmbedder.relative_pos_encoder m) = cp /\
  AtomAttentionEncoder.dropout
    (InputFeatureEmbedder.encoder
       (ProteusFeatureEmbedder.input_feature_embedder m)) =
  ProteusFeatureEmbedder.dropout m.
Proof.
  intros (ws & wc & wr & E). rewrite E. simpl. tauto.
Qed.

Variable self : W -> ProteusFeatureEmbedder.t R.

(** A run in which both collaborators return: what is left is the
    addition of the bias. *)
Lemma forward_run (features : Features) (atom_mask token_mask : option Mask)
    (w w1 w2 : W) (output : AtomAttentionEncoderOutput) (rel : tensor R)
    (bs n : nat) :
  let p := token_single output in
  let m := self w1 in
  let cp := ProteusFeatureEmbedder.c_trunk_pair m in
  collaborators_return self features atom_mask token_mask w output w1 rel w2 ->
  constructed m ->
  shape p = [bs; n; ProteusFeatureEmbedder.c_token m] ->
  exists zz,
    shape zz = [bs; n; n; cp] /\
    (forall b i j o, b < bs -> i < n -> j < n -> o < cp ->
       data zz [b; i; j; o] =
       radd (proj (ProteusFeatureEmbedder.linear_z_col m) p b i o)
            (proj (ProteusFeatureEmbedder.linear_z_row m) p b j o)) /\
    ProteusFeatureEmbedder.forward self features atom_mask token_mask w =
      (match tensor_add zz rel with
       | Ok z =>
           Ok {| s_inputs := p;
                 s_trunk := Linear_apply (ProteusFeatureEmbedder.linear_s_init m) p;
                 z_trunk := z |}
       | Err e => Err e
       end, w2).
Proof.
  intros p m cp [Henc Hrel] Hm Hp.
  destruct (constructed_layers Hm) as ((Hsi & _) & (Hci & Hco & _) & (Hri & Hro & _) & _).
  fold m in Hsi, Hci, Hco, Hri, Hro. fold cp in Hco, Hro.
  destruct (outer_sum_ok _ _ _ Hp Hci Hri Hco Hro)
    as (ci & ri & zz & Eci & Elc & Eri & Elr & Ezz & Szz & Dzz).
  exists zz. repeat split; try assumption.
  unfold ProteusFeatureEmbedder.forward.
  unfold bind at 1. rewrite input_forward_eq, Henc.
  fold p.
  unfold bind, attr, lift, ret. fold m.
  rewrite (Linear_forward_ok _ _ [bs; n]) by (rewrite Hsi; exact Hp).
  rewrite Eci, Elc, Eri, Elr, Ezz.
  unfold m. rewrite Hrel.
  destruct (tensor_add zz rel); reflexivity.
Qed.

(** A run in which both collaborators return and the sizes agree. *)
Lemma forward_ok (features : Features) (atom_mask token_mask : option Mask)
    (w w1 w2 : W) (output : AtomAttentionEncoderOutput) (rel : tensor R)
    (bs n : nat) (s : list nat) :
  let p := token_single output in
  let m := self w1 in
  let cp := ProteusFeatureEmbedder.c_trunk_pair m in
  collaborators_return self features atom_mask token_mask w output w1 rel w2 ->
  constructed m ->
  shape p = [bs; n; ProteusFeatureEmbedder.c_token m] ->
  broadcast_shapes [bs; n; n; cp] (shape rel) = Some s ->
  exists zz z,
    ProteusFeatureEmbedder.forward self features atom_mask token_mask w =
      (Ok {| s_inputs := p;
             s_trunk := Linear_apply (ProteusFeatureEmbedder.linear_s_init m) p;
             z_trunk := z |}, w2) /\
    shape zz = [bs; n; n; cp] /\
    (forall b i j o, b < bs -> i < n -> j < n -> o < cp ->
       data zz [b; i; j; o] =
       radd (proj (ProteusFeatureEmbedder.linear_z_col m) p b i o)
            (proj (ProteusFeatureEmbedder.linear_z_row m) p b j o)) /\
    shape z = s /\
    (forall idx, data z idx = radd (bget zz idx) (bget rel idx)).
Proof.
  intros p m cp Hc Hm Hp Hs.
  destruct (forward_run Hc Hm Hp) as (zz & Szz & Dzz & E).
  fold p m cp in Szz, Dzz, E.
  unfold tensor_add in E. rewrite Szz, Hs in E.
  exists zz. eexists. split; [exact E|].
  repeat split; assumption.
Qed.

Lemma forward_raises (features : Features) (atom_mask token_mask : option Mask)
    (w w1 w2 : W) (output : AtomAttentionEncoderOutput) (rel : tensor R)
    (bs n : nat) :
  let p := token_single output in
  let m := self w1 in
  let cp := ProteusFeatureEmbedder.c_trunk_pair m in
  collaborators_return self features atom_mask token_mask w output w1 rel w2 ->
  constructed m ->
  shape p = [bs; n; ProteusFeatureEmbedder.c_token m] ->
  broadcast_shapes [bs; n; n; cp] (shape rel) = None ->
  ProteusFeatureEmbedder.forward self features atom_mask token_mask w =
    (Err RuntimeError, w2).
Proof.
  intros p m cp Hc Hm Hp Hs.
  destruct (forward_run Hc Hm Hp) as (zz & Szz & Dzz & E).
  fold p m cp in Szz, Dzz, E.
  unfold tensor_add in E. rewrite Szz, Hs in E. exact E.
Qed.

End EmbedderFacts.

Section Specification.
Context {R : Type} `{ScalarOps R} `{Collaborators R}.

Variable self : W -> ProteusFeatureEmbedder.t R.

Hypothesis Rth : ring_theory rO rI radd rmul rsub ropp (@eq R).

(** C1. Whenever both collaborators return, the per-token tensor has
    size [bs, n, c_token] and the bias broadcasts to the size
    [bs, n, n, c_trunk_pair] of the projected pair tensor, [forward]
    returns, and for every pair of tokens (i, j) the entry of z_trunk
    is the projection of token i by the layer applied to the view
    [p[:, :, None, :]], plus the projection of token j by the layer
    applied to the view [p[:, None, :, :]], plus the bias of the pair.
    The bias entry is read where broadcasting places it, which is the
    entry [b, i, j, o] itself when the bias has the size of the pair
    tensor.  With a bias that is zero everywhere z_trunk is the tensor
    [row_proj(p)[:, :, None, :] + col_proj(p)[:, None, :, :]], with
    nothing added.  Here row_proj, the projection of the token of the
    first index, is the layer the source names [linear_z_col], and
    col_proj is [linear_z_row]. *)
Theorem pair_trunk_outer_sum_plus_bias
    (features : Features) (atom_mask token_mask : option Mask)
    (w w1 w2 : W) (output : AtomAttentionEncoderOutput) (rel : tensor R)
    (bs n : nat) :
  let p := token_single output in
  let m := self w1 in
  let cp := ProteusFeatureEmbedder.c_trunk_pair m in
  let row_proj := proj (ProteusFeatureEmbedder.linear_z_col m) p in
  let col_proj := proj (ProteusFeatureEmbedder.linear_z_row m) p in
  collaborators_return self features atom_mask token_mask w output w1 rel w2 ->
  constructed m ->
  shape p = [bs; n; ProteusFeatureEmbedder.c_token m] ->
  broadcast_shapes [bs; n; n; cp] (shape rel) = Some [bs; n; n; cp] ->
  exists out,
    ProteusFeatureEmbedder.forward self features atom_mask token_mask w =
      (Ok out, w2) /\
    shape (z_trunk out) = [bs; n; n; cp] /\
    (forall b i j o, b < bs -> i < n -> j < n -> o < cp ->
       data (z_trunk out) [b; i; j; o] =
       radd (radd (row_proj b i o) (col_proj b j o)) (bget rel [b; i; j; o])) /\
    (shape rel = [bs; n; n; cp] ->
     forall b i j o, b < bs -> i < n -> j < n -> o < cp ->
       data (z_trunk out) [b; i; j; o] =
       radd (radd (row_proj b i o) (col_proj b j o)) (data rel [b; i; j; o])) /\
    ((forall idx, data rel idx = rO) ->
     exists rows cols outer,
       getitem (Linear_apply (ProteusFeatureEmbedder.linear_z_col m) p)
               [Slice; Slice; NewAxis; Slice] = Ok rows /\
       getitem (Linear_apply (ProteusFeatureEmbedder.linear_z_row m) p)
               [Slice; NewAxis; Slice; Slice] = Ok cols /\
       tensor_add rows cols = Ok outer /\
       tensor_eq (z_trunk out) outer /\
       forall b i j o, b < bs -> i < n -> j < n -> o < cp ->
         data (z_trunk out) [b; i; j; o] =
         radd (row_proj b i o) (col_proj b j o)).
Proof.
  intros p m cp row_proj col_proj Hc Hm Hp Hs.
  destruct (forward_ok Hc Hm Hp Hs) as (zz & z & E & Szz & Dzz & Sz & Dz).
  fold p m cp in E, Szz, Dzz, Sz, Dz.
  eexists. split; [exact E|]. simpl.
  assert (Hz : forall b i j o, b < bs -> i < n -> j < n -> o < cp ->
            data z [b; i; j; o] =
            radd (radd (row_proj b i o) (col_proj b j o)) (bget rel [b; i; j; o])).
  { intros b i j o Hb Hi Hj Ho. rewrite Dz. f_equal.
    rewrite bget_in_range by (rewrite Szz; simpl; tauto).
    now apply Dzz. }
  repeat split; try assumption.
  - intros Hr b i j o Hb Hi Hj Ho. rewrite Hz by assumption.
    f_equal. apply bget_in_range. rewrite Hr. simpl. tauto.
  - intros Hr.
    assert (Hz0 : forall b i j o, b < bs -> i < n -> j < n -> o < cp ->
              data z [b; i; j; o] = radd (row_proj b i o) (col_proj b j o)).
    { intros b i j o Hb Hi Hj Ho. rewrite Hz by assumption.
      unfold bget. rewrite Hr. apply (radd_0_r Rth). }
    destruct (constructed_layers Hm) as (_ & (_ & Hco & _) & (_ & Hro & _) & _).
    destruct (projections_outer_sum _ _ _ Hp Hco Hro)
      as (a & b & outer & Ea & Eb & Eo & So & Do).
    exists a, b, outer. repeat split; try assumption.
    + now rewrite So.
    + intros idx Hi. rewrite Sz in Hi.
      destruct idx as [|x [|i [|j [|o [|? ?]]]]]; simpl in Hi; try tauto.
      destruct Hi as (Hx & Hi & Hj & Ho & _).
      rewrite Hz0, Do by assumption. reflexivity.
Qed.

(** C2. [InputFeatureEmbedder.forward] calls the encoder on the
    features and the mask it was given and returns the [token_single]
    field of the encoder's output as it is, or the encoder's
    exception; the world it leaves is the one the encoder left.  When
    the encoder's output has size [*, N_tokens, c_token] for the
    encoder's own arguments, this is the size [*, n_tokens, c_token]
    of the embedder's fields. *)
Theorem input_embedder_returns_token_single
    (iself : W -> InputFeatureEmbedder.t) (features : Features) (mask : option Mask) (w : W) :
  InputFeatureEmbedder.forward iself features mask w =
    (let (r, w1) := AtomAttentionEncoder_forward
                      (InputFeatureEmbedder.encoder (iself w)) features mask w in
     (match r with
      | Ok output => Ok (token_single output)
      | Err e => Err e
      end, w1)) /\
  (forall output w1 batch,
     input_constructed (iself w) ->
     AtomAttentionEncoder_forward
       (InputFeatureEmbedder.encoder (iself w)) features mask w = (Ok output, w1) ->
     shape (token_single output) =
       batch ++ [AtomAttentionEncoder.n_tokens (InputFeatureEmbedder.encoder (iself w));
                 AtomAttentionEncoder.c_token (InputFeatureEmbedder.encoder (iself w))] ->
     exists t,
       InputFeatureEmbedder.forward iself features mask w = (Ok t, w1) /\
       t = token_single output /\
       shape t = batch ++ [InputFeatureEmbedder.n_tokens (iself w);
                           InputFeatureEmbedder.c_token (iself w)]).
Proof.
  split; [apply input_forward_eq|].
  intros output w1 batch Hm Henc Hs.
  exists (token_single output).
  rewrite input_forward_eq, Henc. repeat split.
  rewrite Hs. rewrite Hm. reflexivity.
Qed.

(** C3. The s_trunk that [forward] returns is [linear_s_init], a layer
    without bias, applied to the per-token tensor: it has the batch
    size and the token count of that tensor, and each entry is the
    sum over k of the token's entry k times the weight [o, k], with
    nothing added. *)
Theorem single_trunk_unbiased_projection
    (features : Features) (atom_mask token_mask : option Mask)
    (w w1 w2 : W) (output : AtomAttentionEncoderOutput) (rel : tensor R)
    (bs n : nat) (s : list nat) :
  let p := token_single output in
  let m := self w1 in
  let cp := ProteusFeatureEmbedder.c_trunk_pair m in
  let ct := ProteusFeatureEmbedder.c_token m in
  collaborators_return self features atom_mask token_mask w output w1 rel w2 ->
  constructed m ->
  shape p = [bs; n; ct] ->
  broadcast_shapes [bs; n; n; cp] (shape rel) = Some s ->
  exists out,
    ProteusFeatureEmbedder.forward self features atom_mask token_mask w =
      (Ok out, w2) /\
    bias (ProteusFeatureEmbedder.linear_s_init m) = None /\
    shape (s_trunk out) = [bs; n; ct] /\
    forall b i o,
      data (s_trunk out) [b; i; o] =
      dot ct (fun k => data p [b; i; k])
             (fun k => data (weight (ProteusFeatureEmbedder.linear_s_init m)) [o; k]).
Proof.
  intros p m cp ct Hc Hm Hp Hs.
  destruct (forward_ok Hc Hm Hp Hs) as (zz & z & E & _).
  fold p m cp in E.
  destruct (constructed_layers Hm) as ((Hsi & Hso & Hsb) & _).
  fold m ct in Hsi, Hso, Hsb.
  eexists. split; [exact E|]. simpl.
  split; [exact Hsb|]. split.
  - rewrite Hp, Hso. reflexivity.
  - intros b i o. rewrite Hsb, Hsi. reflexivity.
Qed.

(** C4 (amended). In exact arithmetic, that is when the scalars obey
    the ring laws, and with a bias that is the same for all pairs of
    tokens, the difference z_trunk[i, j] - z_trunk[k, j] is the
    difference of the
    projections of tokens i and k by the layer applied to the view
    [p[:, :, None, :]]: the term of token j cancels, and the
    difference is the same for every j. *)
Theorem pair_row_difference_independent_of_column
    (features : Features) (atom_mask token_mask : option Mask)
    (w w1 w2 : W) (output : AtomAttentionEncoderOutput) (rel : tensor R)
    (bs n : nat) :
  let p := token_single output in
  let m := self w1 in
  let cp := ProteusFeatureEmbedder.c_trunk_pair m in
  let row_term := proj (ProteusFeatureEmbedder.linear_z_col m) p in
  collaborators_return self features atom_mask token_mask w output w1 rel w2 ->
  constructed m ->
  shape p = [bs; n; ProteusFeatureEmbedder.c_token m] ->
  broadcast_shapes [bs; n; n; cp] (shape rel) = Some [bs; n; n; cp] ->
  (forall b o i j i' j', i < n -> j < n -> i' < n -> j' < n ->
     bget rel [b; i; j; o] = bget rel [b; i'; j'; o]) ->
  exists out,
    ProteusFeatureEmbedder.forward self features atom_mask token_mask w =
      (Ok out, w2) /\
    (forall b i k j o, b < bs -> i < n -> k < n -> j < n -> o < cp ->
       rsub (data (z_trunk out) [b; i; j; o]) (data (z_trunk out) [b; k; j; o]) =
       rsub (row_term b i o) (row_term b k o)) /\
    (forall b i k j j' o, b < bs -> i < n -> k < n -> j < n -> j' < n -> o < cp ->
       rsub (data (z_trunk out) [b; i; j; o]) (data (z_trunk out) [b; k; j; o]) =
       rsub (data (z_trunk out) [b; i; j'; o]) (data (z_trunk out) [b; k; j'; o])).
Proof.
  intros p m cp row_term Hc Hm Hp Hs Hfix.
  destruct (forward_ok Hc Hm Hp Hs) as (zz & z & E & Szz & Dzz & Sz & Dz).
  fold p m cp in E, Szz, Dzz, Sz, Dz.
  eexists. split; [exact E|]. simpl.
  assert (Hd : forall b i k j o, b < bs -> i < n -> k < n -> j < n -> o < cp ->
            rsub (data z [b; i; j; o]) (data z [b; k; j; o]) =
            rsub (row_term b i o) (row_term b k o)).
  { intros b i k j o Hb Hi Hk Hj Ho. rewrite !Dz.
    rewrite !bget_in_range with (t := zz) by (rewrite Szz; simpl; tauto).
    rewrite !Dzz by assumption.
    rewrite (Hfix b o i j k j) by assumption.
    apply (rsub_cancel Rth). }
  split; [exact Hd|].
  intros b i k j j' o Hb Hi Hk Hj Hj' Ho.
  now rewrite !Hd.
Qed.

(** C5 (amended). No size is checked before the bias is added, and
    there is no DimensionMismatch: once both collaborators have
    returned, [forward] raises the RuntimeError of the addition when
    the size of the bias does not broadcast against the size
    [bs, n, n, c_trunk_pair] of the projected pair tensor, and returns
    no output; otherwise it returns an output whose z_trunk has the
    broadcast size.  For a bias with four dimensions the call raises
    exactly when some dimension of the bias differs from the one of
    the pair tensor and neither of the two is 1. *)
Theorem bias_mismatch_raises_unless_broadcastable
    (features : Features) (atom_mask token_mask : option Mask)
    (w w1 w2 : W) (output : AtomAttentionEncoderOutput) (rel : tensor R)
    (bs n : nat) :
  let p := token_single output in
  let m := self w1 in
  let cp := ProteusFeatureEmbedder.c_trunk_pair m in
  let result := ProteusFeatureEmbedder.forward self features atom_mask token_mask w in
  collaborators_return self features atom_mask token_mask w output w1 rel w2 ->
  constructed m ->
  shape p = [bs; n; ProteusFeatureEmbedder.c_token m] ->
  (broadcast_shapes [bs; n; n; cp] (shape rel) = None ->
   result = (Err RuntimeError, w2)) /\
  (forall s, broadcast_shapes [bs; n; n; cp] (shape rel) = Some s ->
     exists out, result = (Ok out, w2) /\ shape (z_trunk out) = s) /\
  (forall rb r1 r2 rc, shape rel = [rb; r1; r2; rc] ->
     (result = (Err RuntimeError, w2) <->
      compatible bs rb && compatible n r1 && compatible n r2 && compatible cp rc
      = false)).
Proof.
  intros p m cp result Hc Hm Hp.
  assert (Hnone : broadcast_shapes [bs; n; n; cp] (shape rel) = None ->
                  result = (Err RuntimeError, w2))
    by (intros Hs; exact (forward_raises Hc Hm Hp Hs)).
  assert (Hsome : forall s, broadcast_shapes [bs; n; n; cp] (shape rel) = Some s ->
                  exists out, result = (Ok out, w2) /\ shape (z_trunk out) = s).
  { intros s Hs.
    destruct (forward_ok Hc Hm Hp Hs) as (zz & z & E & _ & _ & Sz & _).
    eexists. split; [exact E|exact Sz]. }
  split; [exact Hnone|]. split; [exact Hsome|].
  intros rb r1 r2 rc Hr. rewrite Hr in Hnone, Hsome. split.
  - intros E. apply broadcast_four.
    destruct (broadcast_shapes [bs; n; n; cp] [rb; r1; r2; rc]) as [s|] eqn:Hs;
      [|reflexivity].
    destruct (Hsome s eq_refl) as (out & E' & _). congruence.
  - intros Hx. apply Hnone. now apply broadcast_four.
Qed.

(** C8. A call that omits the masks binds them to [None]: the encoder
    and the relative position encoder are called with [None], and
    when they return and the sizes fit, the call returns a full
    output. *)
Theorem omitted_masks_are_none
    (iself : W -> InputFeatureEmbedder.t) (features : Features) (w w1 w2 : W)
    (output : AtomAttentionEncoderOutput) (rel : tensor R)
    (bs n : nat) (s : list nat) :
  let p := token_single output in
  let m := self w1 in
  let cp := ProteusFeatureEmbedder.c_trunk_pair m in
  InputFeatureEmbedder.call iself features None w =
    (let (r, v) := AtomAttentionEncoder_forward
                     (InputFeatureEmbedder.encoder (iself w)) features None w in
     (match r with
      | Ok output => Ok (token_single output)
      | Err e => Err e
      end, v)) /\
  (collaborators_return self features None None w output w1 rel w2 ->
   constructed m ->
   shape p = [bs; n; ProteusFeatureEmbedder.c_token m] ->
   broadcast_shapes [bs; n; n; cp] (shape rel) = Some s ->
   exists out,
     ProteusFeatureEmbedder.call self features None None w = (Ok out, w2) /\
     s_inputs out = p /\
     shape (s_trunk out) = [bs; n; ProteusFeatureEmbedder.c_token m] /\
     shape (z_trunk out) = s).
Proof.
  intros p m cp. split.
  - unfold InputFeatureEmbedder.call. simpl. apply input_forward_eq.
  - intros Hc Hm Hp Hs.
    destruct (forward_ok Hc Hm Hp Hs) as (zz & z & E & _ & _ & Sz & _).
    fold p m cp in E.
    destruct (constructed_layers Hm) as ((_ & Hso & _) & _). fold m in Hso.
    eexists. split; [exact E|]. simpl. repeat split; try assumption.
    rewrite Hp, Hso. reflexivity.
Qed.

(** C9. In every call that returns, s_inputs is the tensor that the
    inner [InputFeatureEmbedder] returned for the same features and
    atom mask, s_trunk is [linear_s_init] applied to that tensor, and
    z_trunk is built from the two views of that same tensor. *)
Theorem s_inputs_is_encoder_output
    (features : Features) (atom_mask token_mask : option Mask)
    (w w2 : W) (out : ProteusFeatures R) :
  ProteusFeatureEmbedder.forward self features atom_mask token_mask w = (Ok out, w2) ->
  exists w1,
    InputFeatureEmbedder.forward (ife_of self) features atom_mask w =
      (Ok (s_inputs out), w1) /\
    Linear_forward (ProteusFeatureEmbedder.linear_s_init (self w1)) (s_inputs out) =
      Ok (s_trunk out) /\
    s_trunk out =
      Linear_apply (ProteusFeatureEmbedder.linear_s_init (self w1)) (s_inputs out) /\
    exists ci ri col row zz rel,
      getitem (s_inputs out) [Slice; Slice; NewAxis; Slice] = Ok ci /\
      Linear_forward (ProteusFeatureEmbedder.linear_z_col (self w1)) ci = Ok col /\
      getitem (s_inputs out) [Slice; NewAxis; Slice; Slice] = Ok ri /\
      Linear_forward (ProteusFeatureEmbedder.linear_z_row (self w1)) ri = Ok row /\
      tensor_add col row = Ok zz /\
      RelativePositionEncoding_forward
        (ProteusFeatureEmbedder.relative_pos_encoder (self w1))
        features token_mask w1 = (Ok rel, w2) /\
      tensor_add zz rel = Ok (z_trunk out).
Proof.
  unfold ProteusFeatureEmbedder.forward. unfold bind at 1.
  destruct (InputFeatureEmbedder.forward _ features atom_mask w)
    as [[p|e] w1] eqn:Ein; [|discriminate].
  unfold bind, attr, lift, ret.
  destruct (Linear_forward _ p) as [st|] eqn:Est; [|discriminate].
  destruct (getitem p [Slice; Slice; NewAxis; Slice]) as [ci|] eqn:Eci; [|discriminate].
  destruct (Linear_forward _ ci) as [col|] eqn:Ecol; [|discriminate].
  destruct (getitem p [Slice; NewAxis; Slice; Slice]) as [ri|] eqn:Eri; [|discriminate].
  destruct (Linear_forward _ ri) as [row|] eqn:Erow; [|discriminate].
  destruct (tensor_add col row) as [zz|] eqn:Ezz; [|discriminate].
  destruct (RelativePositionEncoding_forward _ features token_mask w1)
    as [[rel|e] w2'] eqn:Erel; [|discriminate].
  destruct (tensor_add zz rel) as [z|] eqn:Ez; [|discriminate].
  intros E. injection E as <- <-. simpl.
  exists w1. split; [reflexivity|]. split; [exact Est|]. split.
  - unfold Linear_forward in Est.
    destruct (rev (shape p)) as [|d r]; [discriminate|].
    destruct (d =? _); [|discriminate]. now injection Est as <-.
  - exists ci, ri, col, row, zz, rel. repeat split; assumption.
Qed.

(** C10 (amended). Both pair projections have output width
    c_trunk_pair, and the last dimension of z_trunk is what
    broadcasting makes of that width and of the last dimension of the
    bias: it is c_trunk_pair whenever c_trunk_pair is not 1, whatever
    bias was added, and whenever the last dimension of the bias is
    c_trunk_pair or 1 (or the bias has no dimension); when
    c_trunk_pair is 1 it is the last dimension of the bias.  Where it
    is c_trunk_pair it is not c_token, unless the two are equal. *)
Theorem pair_trunk_channel_width
    (features : Features) (atom_mask token_mask : option Mask)
    (w w1 w2 : W) (output : AtomAttentionEncoderOutput) (rel : tensor R)
    (bs n : nat) (s : list nat) :
  let p := token_single output in
  let m := self w1 in
  let cp := ProteusFeatureEmbedder.c_trunk_pair m in
  let ct := ProteusFeatureEmbedder.c_token m in
  collaborators_return self features atom_mask token_mask w output w1 rel w2 ->
  constructed m ->
  shape p = [bs; n; ct] ->
  broadcast_shapes [bs; n; n; cp] (shape rel) = Some s ->
  exists out,
    ProteusFeatureEmbedder.forward self features atom_mask token_mask w =
      (Ok out, w2) /\
    out_features (ProteusFeatureEmbedder.linear_z_col m) = cp /\
    out_features (ProteusFeatureEmbedder.linear_z_row m) = cp /\
    last (shape (z_trunk out)) 0 =
      (if cp =? 1 then last (shape rel) 1 else cp) /\
    (cp <> 1 \/ last (shape rel) 1 = cp \/ last (shape rel) 1 = 1 ->
     last (shape (z_trunk out)) 0 = cp /\
     (cp <> ct -> last (shape (z_trunk out)) 0 <> ct)).
Proof.
  intros p m cp ct Hc Hm Hp Hs.
  destruct (forward_ok Hc Hm Hp Hs) as (zz & z & E & _ & _ & Sz & _).
  fold p m cp in E.
  destruct (constructed_layers Hm) as (_ & (_ & Hco & _) & (_ & Hro & _) & _).
  fold m cp in Hco, Hro.
  assert (Hl : last s 0 = if cp =? 1 then last (shape rel) 1 else cp)
    by exact (@broadcast_last [bs; n; n] (shape rel) s cp Hs).
  eexists. split; [exact E|]. simpl. rewrite Sz.
  split; [exact Hco|]. split; [exact Hro|]. split; [exact Hl|].
  intros Hw.
  assert (Hcp : last s 0 = cp).
  { rewrite Hl. destruct (Nat.eqb_spec cp 1) as [E1|]; [|reflexivity].
    destruct Hw as [Hw|[Hw|Hw]]; congruence. }
  split; [exact Hcp|]. intros Hne. now rewrite Hcp.
Qed.

End Specification.

(** * The statements at work in the small world *)

Lemma small_constructed : constructed Example.small.
Proof. exists Example.w_s, Example.w_col, Example.w_row. reflexivity. Qed.

Lemma by_default_constructed : constructed Example.by_default.
Proof. exists Example.w_s, Example.w_col, Example.w_row. reflexivity. Qed.

Lemma collaborators_return_here (w : Example.world) :
  @collaborators_return Z Example.collaborators Example.module_ tt None None
    w (Example.tokens w) (Example.advance w)
    (Example.pair_bias w) (Example.advance (Example.advance w)).
Proof. split; reflexivity. Qed.

Lemma pair_trunk_outer_sum_plus_bias_witness :
  (exists out,
     Example.run Example.w_full =
       (Ok out, Example.advance (Example.advance Example.w_full)) /\
     data (z_trunk out) [0; 0; 1; 0] = 216%Z /\
     data (z_trunk out) [0; 1; 0; 0] = 261%Z) /\
  (exists out,
     Example.run Example.w_zero =
       (Ok out, Example.advance (Example.advance Example.w_zero)) /\
     data (z_trunk out) [0; 0; 1; 0] = 115%Z /\
     data (z_trunk out) [0; 1; 0; 0] = 61%Z).
Proof.
  split.
  - destruct (@pair_trunk_outer_sum_plus_bias Z Z_scalar Example.collaborators
                Example.module_ Zth tt None None Example.w_full _ _ _ _ 1 2
                (collaborators_return_here Example.w_full)
                small_constructed eq_refl eq_refl)
      as (out & E & _ & _ & Hz & _).
    exists out. split; [exact E|].
    split; (rewrite (Hz eq_refl) by (vm_compute; lia); reflexivity).
  - destruct (@pair_trunk_outer_sum_plus_bias Z Z_scalar Example.collaborators
                Example.module_ Zth tt None None Example.w_zero _ _ _ _ 1 2
                (collaborators_return_here Example.w_zero)
                small_constructed eq_refl eq_refl)
      as (out & E & _ & _ & _ & Hz).
    destruct (Hz (fun _ => eq_refl)) as (a & b & outer & _ & _ & _ & _ & Hz0).
    exists out. split; [exact E|].
    split; (rewrite Hz0 by (vm_compute; lia); reflexivity).
Defined.

(** Which layer projects which token: in z_trunk[0, 1] the first
    token goes through [linear_z_col] and the second through
    [linear_z_row], and the two layers cannot be exchanged. *)
Lemma pair_projection_roles :
  let p := Example.two_tokens in
  let col := proj (ProteusFeatureEmbedder.linear_z_col Example.small) p in
  let row := proj (ProteusFeatureEmbedder.linear_z_row Example.small) p in
  exists out,
    fst (Example.run Example.w_zero) = Ok out /\
    data (z_trunk out) [0; 0; 1; 0] = Z.add (col 0 0 0) (row 0 1 0) /\
    data (z_trunk out) [0; 0; 1; 0] <> Z.add (row 0 0 0) (col 0 1 0).
Proof.
  eexists. split; [reflexivity|]. split; [reflexivity|].
  vm_compute. discriminate.
Qed.

Lemma input_embedder_returns_token_single_witness :
  Example.run_input Example.w_full =
    (Ok Example.two_tokens, Example.advance Example.w_full) /\
  shape Example.two_tokens = [1; 2; 2].
Proof.
  destruct (proj2 (@input_embedder_returns_token_single Z Example.collaborators
                     (ife_of Example.module_) tt None Example.w_full)
                  Example.two_tokens (Example.advance Example.w_full) [1]
                  eq_refl eq_refl eq_refl)
    as (t & E & Et & St).
  rewrite Et in E, St. split; [exact E|exact St].
Defined.

Lemma single_trunk_unbiased_projection_witness :
  exists out,
    Example.run Example.w_full =
      (Ok out, Example.advance (Example.advance Example.w_full)) /\
    shape (s_trunk out) = [1; 2; 2] /\
    data (s_trunk out) [0; 1; 0] = 3%Z /\
    data (s_trunk out) [0; 1; 1] = 4%Z.
Proof.
  destruct (@single_trunk_unbiased_projection Z Z_scalar Example.collaborators
              Example.module_ tt None None Example.w_full _ _ _ _ 1 2 [1; 2; 2; 1]
              (collaborators_return_here Example.w_full)
              small_constructed eq_refl eq_refl)
    as (out & E & _ & S & D).
  exists out. split; [exact E|]. split; [exact S|].
  split; (rewrite D; reflexivity).
Defined.

Lemma pair_row_difference_independent_of_column_witness :
  exists out,
    Example.run Example.w_zero =
      (Ok out, Example.advance (Example.advance Example.w_zero)) /\
    Z.sub (data (z_trunk out) [0; 0; 0; 0]) (data (z_trunk out) [0; 1; 0; 0])
      = (-6)%Z /\
    Z.sub (data (z_trunk out) [0; 0; 1; 0]) (data (z_trunk out) [0; 1; 1; 0])
      = (-6)%Z.
Proof.
  destruct (@pair_row_difference_independent_of_column Z Z_scalar
              Example.collaborators Example.module_ Zth tt None None
              Example.w_zero _ _ _ _ 1 2
              (collaborators_return_here Example.w_zero)
              small_constructed eq_refl eq_refl
              (fun _ _ _ _ _ _ _ _ _ _ => eq_refl))
    as (out & E & D & _).
  exists out. split; [exact E|].
  split.
  - exact (D 0 0 1 0 0 (le_n 1) (le_S 1 1 (le_n 1)) (le_n 2)
             (le_S 1 1 (le_n 1)) (le_n 1)).
  - exact (D 0 0 1 1 0 (le_n 1) (le_S 1 1 (le_n 1)) (le_n 2) (le_n 2) (le_n 1)).
Defined.

(** C5, as stated, fails: a bias for one token is added to a pair
    tensor for two tokens without any error. *)
Lemma one_token_bias_is_broadcast :
  shape (Example.tokens Example.w_one_token_bias) = [1; 2; 2] /\
  shape (Example.pair_bias Example.w_one_token_bias) = [1; 1; 1; 1] /\
  nth 1 (shape (Example.pair_bias Example.w_one_token_bias)) 0 <>
  nth 1 (shape (Example.tokens Example.w_one_token_bias)) 0 /\
  (forall e, fst (Example.run Example.w_one_token_bias) <> Err e) /\
  exists out,
    fst (Example.run Example.w_one_token_bias) = Ok out /\
    shape (z_trunk out) = [1; 2; 2; 1] /\
    data (z_trunk out) [0; 1; 0; 0] = 68%Z.
Proof.
  repeat split.
  - simpl. discriminate.
  - intros e. vm_compute. discriminate.
  - eexists. split; [reflexivity|]. split; reflexivity.
Qed.

Lemma bias_mismatch_raises_unless_broadcastable_witness :
  Example.run Example.w_three_token_bias =
    (Err RuntimeError, Example.advance (Example.advance Example.w_three_token_bias)) /\
  exists out,
    Example.run Example.w_one_token_bias =
      (Ok out, Example.advance (Example.advance Example.w_one_token_bias)) /\
    shape (z_trunk out) = [1; 2; 2; 1].
Proof.
  split.
  - exact (proj1 (@bias_mismatch_raises_unless_broadcastable Z Z_scalar
                    Example.collaborators Example.module_ tt None None
                    Example.w_three_token_bias _ _ _ _ 1 2
                    (collaborators_return_here Example.w_three_token_bias)
                    small_constructed eq_refl) eq_refl).
  - exact (proj1 (proj2 (@bias_mismatch_raises_unless_broadcastable Z Z_scalar
                    Example.collaborators Example.module_ tt None None
                    Example.w_one_token_bias _ _ _ _ 1 2
                    (collaborators_return_here Example.w_one_token_bias)
                    small_constructed eq_refl)) [1; 2; 2; 1] eq_refl).
Defined.

Lemma omitted_masks_are_none_witness :
  exists out,
    @ProteusFeatureEmbedder.call Z Z_scalar Example.collaborators
      Example.module_ tt None None Example.w_full =
      (Ok out, Example.advance (Example.advance Example.w_full)) /\
    s_inputs out = Example.two_tokens /\
    shape (z_trunk out) = [1; 2; 2; 1].
Proof.
  destruct (proj2 (@omitted_masks_are_none Z Z_scalar Example.collaborators
                     Example.module_ (ife_of Example.module_) tt
                     Example.w_full _ _ Example.two_tokens
                     (Example.pair_bias Example.w_full) 1 2 [1; 2; 2; 1])
                  (collaborators_return_here Example.w_full)
                  small_constructed eq_refl eq_refl)
    as (out & E & Es & _ & Sz).
  exists out. split; [exact E|]. split; [exact Es|exact Sz].
Defined.

Lemma s_inputs_is_encoder_output_witness :
  exists out w1 w2,
    Example.run Example.w_full = (Ok out, w2) /\
    Example.run_input Example.w_full = (Ok (s_inputs out), w1) /\
    s_inputs out = Example.two_tokens /\
    s_trunk out =
      Linear_apply (ProteusFeatureEmbedder.linear_s_init (Example.module_ w1))
                   (s_inputs out).
Proof.
  assert (E : exists out w2, Example.run Example.w_full = (Ok out, w2) /\
                             s_inputs out = Example.two_tokens).
  { eexists. eexists. split; reflexivity. }
  destruct E as (out & w2 & E & Ep).
  destruct (@s_inputs_is_encoder_output Z Z_scalar Example.collaborators
              Example.module_ tt None None Example.w_full w2 out E)
    as (w1 & Ein & _ & Es & _).
  exists out, w1, w2.
  split; [exact E|]. split; [exact Ein|]. split; [exact Ep|exact Es].
Defined.

Lemma pair_trunk_channel_width_witness :
  exists out,
    Example.run Example.w_default =
      (Ok out, Example.advance (Example.advance Example.w_default)) /\
    ProteusFeatureEmbedder.c_token Example.by_default = 384 /\
    last (shape (z_trunk out)) 0 = 16 /\
    last (shape (z_trunk out)) 0 <> 384.
Proof.
  destruct (@pair_trunk_channel_width Z Z_scalar Example.collaborators
              Example.module_ tt None None Example.w_default _ _ _ _ 1 2
              [1; 2; 2; 16]
              (collaborators_return_here Example.w_default)
              by_default_constructed eq_refl eq_refl)
    as (out & E & _ & _ & _ & Hw).
  assert (H16 : 16 <> 1) by discriminate.
  destruct (Hw (or_introl H16)) as [Hl Hn].
  exists out. split; [exact E|]. split; [reflexivity|].
  split; [exact Hl|].
  apply Hn. vm_compute. discriminate.
Defined.

(** C10, as stated, fails: with c_trunk_pair equal to 1, a bias of
    channel width 3 is added without error and z_trunk has width 3. *)
Lemma wide_bias_widens_pair_trunk :
  ProteusFeatureEmbedder.c_trunk_pair (Example.module_ Cases.w_wide_bias) = 1 /\
  exists out,
    Example.run Cases.w_wide_bias =
      (Ok out, Example.advance (Example.advance Cases.w_wide_bias)) /\
    shape (z_trunk out) = [1; 2; 2; 3] /\
    last (shape (z_trunk out)) 0 <>
    ProteusFeatureEmbedder.c_trunk_pair (Example.module_ Cases.w_wide_bias).
Proof.
  split; [reflexivity|].
  eexists. split; [reflexivity|]. split; [reflexivity|].
  vm_compute. discriminate.
Qed.

(** C4, as stated, fails in single precision.  With the tokens
    [[1, 0], [2^24, 0]] and a zero bias, z_trunk is
    [[11, 167772160], [16777226, 184549376]]: the sum 1 + 167772160
    is rounded.  The difference between the rows 0 and 1 is -16777215
    in column 0 and -16777216 in column 1. *)
Lemma row_difference_depends_on_column_in_binary32 :
  exists out,
    fst (Binary32.run Binary32.w_large) = Ok out /\
    (forall i j i' j', data Binary32.zero_bias [0; i; j; 0] =
                       data Binary32.zero_bias [0; i'; j'; 0]) /\
    data (z_trunk out) [0; 0; 1; 0] = Binary32.of_Z 167772160 /\
    SpecFloat.SFsub Binary32.prec Binary32.emax
      (data (z_trunk out) [0; 0; 0; 0]) (data (z_trunk out) [0; 1; 0; 0])
      = Binary32.of_Z (-16777215) /\
    SpecFloat.SFsub Binary32.prec Binary32.emax
      (data (z_trunk out) [0; 0; 1; 0]) (data (z_trunk out) [0; 1; 1; 0])
      = Binary32.of_Z (-16777216) /\
    SpecFloat.SFsub Binary32.prec Binary32.emax
      (data (z_trunk out) [0; 0; 0; 0]) (data (z_trunk out) [0; 1; 0; 0])
    <>
    SpecFloat.SFsub Binary32.prec Binary32.emax
      (data (z_trunk out) [0; 0; 1; 0]) (data (z_trunk out) [0; 1; 1; 0]).
Proof.
  eexists. split; [reflexivity|]. split; [reflexivity|].
  split; [vm_compute; reflexivity|].
  split; [vm_compute; reflexivity|].
  split; [vm_compute; reflexivity|].
  vm_compute. discriminate.
Qed.

(** * Further behaviour of the two modules *)

Section SumFacts.
Context {R : Type} `{ScalarOps R}.

Lemma fold_dot_ext (x x' w w' : nat -> R) (l : list nat) (acc : R) :
  (forall k, In k l -> x k = x' k /\ w k = w' k) ->
  fold_left (fun a k => radd a (rmul (x k) (w k))) l acc =
  fold_left (fun a k => radd a (rmul (x' k) (w' k))) l acc.
Proof.
  revert acc. induction l as [|k l IH]; intros acc Hl; [reflexivity|].
  simpl. destruct (Hl k (or_introl eq_refl)) as [-> ->].
  apply IH. intros j Hj. apply Hl. now right.
Qed.

(** A dot product reads its two arguments below [n] only. *)
Lemma dot_ext (n : nat) (x x' w w' : nat -> R) :
  (forall k, k < n -> x k = x' k) ->
  (forall k, k < n -> w k = w' k) ->
  dot n x w = dot n x' w'.
Proof.
  intros Hx Hw. unfold dot. apply fold_dot_ext.
  intros k Hk. apply in_seq in Hk. split; [apply Hx|apply Hw]; lia.
Qed.

Hypothesis Rth : ring_theory rO rI radd rmul rsub ropp (@eq R).
Add Ring scalars_sum : Rth.

Lemma radd_0_l (x : R) : radd rO x = x.
Proof. ring. Qed.

Lemma dot_zero (n : nat) (x w : nat -> R) :
  (forall k, k < n -> x k = rO) -> dot n x w = rO.
Proof.
  intros Hx. rewrite (dot_ext x (fun _ => rO) w w Hx (fun _ _ => eq_refl)).
  unfold dot. induction (seq 0 n) as [|k l IH]; [reflexivity|].
  simpl. replace (radd rO (rmul rO (w k))) with rO by ring. exact IH.
Qed.

(** The mixed second difference of an outer sum plus a bias is that
    of the bias. *)
Lemma mixed_difference (ri rk cj cl bij bkj bil bkl : R) :
  rsub (rsub (radd (radd ri cj) bij) (radd (radd rk cj) bkj))
       (rsub (radd (radd ri cl) bil) (radd (radd rk cl) bkl)) =
  rsub (rsub bij bkj) (rsub bil bkl).
Proof. ring. Qed.

End SumFacts.

Section IndexFacts.
Context {R : Type} `{ScalarOps R}.

Lemma getitem_too_many (t : tensor R) (ix : list index_item) :
  ndim t < count_slices ix -> getitem t ix = Err IndexError.
Proof.
  intros Hn. unfold getitem.
  destruct (Nat.leb_spec (count_slices ix) (ndim t)); [lia|reflexivity].
Qed.

Lemma getitem_ok_ndim (t u : tensor R) (ix : list index_item) :
  getitem t ix = Ok u -> count_slices ix <= ndim t.
Proof.
  unfold getitem.
  destruct (Nat.leb_spec (count_slices ix) (ndim t)); [auto|discriminate].
Qed.

Lemma Linear_forward_inv (l : Linear R) (x y : tensor R) :
  Linear_forward l x = Ok y ->
  y = Linear_apply l x /\
  shape x = removelast (shape x) ++ [in_features l].
Proof.
  unfold Linear_forward. destruct (rev (shape x)) as [|d r] eqn:E; [discriminate|].
  destruct (Nat.eqb_spec d (in_features l)) as [->|]; [|discriminate].
  intros Ey. injection Ey as <-. split; [reflexivity|].
  assert (Es : shape x = rev r ++ [in_features l]).
  { rewrite <- (rev_involutive (shape x)), E. reflexivity. }
  rewrite Es at 2. now rewrite removelast_last.
Qed.

Lemma Linear_forward_wrong_width (l : Linear R) (x : tensor R) :
  (forall pre, shape x <> pre ++ [in_features l]) ->
  Linear_forward l x = Err RuntimeError.
Proof.
  intros Hs. unfold Linear_forward.
  destruct (rev (shape x)) as [|d r] eqn:E; [reflexivity|].
  destruct (Nat.eqb_spec d (in_features l)) as [->|]; [|reflexivity].
  exfalso. apply (Hs (rev r)).
  rewrite <- (rev_involutive (shape x)), E. reflexivity.
Qed.


End IndexFacts.

Section ShapeFacts.

Lemma broadcast_rev_length (r1 r2 r : list nat) :
  broadcast_rev r1 r2 = Some r -> length r = Nat.max (length r1) (length r2).
Proof.
  revert r2 r. induction r1 as [|d1 r1 IH]; intros [|d2 r2] r; simpl;
    try (intros E; injection E as <-; simpl; lia).
  destruct (broadcast_rev r1 r2) as [r'|] eqn:E; [|discriminate].
  specialize (IH _ _ E).
  destruct (d1 =? d2); [|destruct (d1 =? 1); [|destruct (d2 =? 1)]];
    try discriminate; intros E'; injection E' as <-; simpl; lia.
Qed.

Lemma broadcast_shapes_length (s1 s2 s : list nat) :
  broadcast_shapes s1 s2 = Some s ->
  length s = Nat.max (length s1) (length s2).
Proof.
  unfold broadcast_shapes.
  destruct (broadcast_rev (rev s1) (rev s2)) as [r|] eqn:E; [|discriminate].
  simpl. intros E'. injection E' as <-.
  rewrite length_rev, (broadcast_rev_length _ _ E), !length_rev. reflexivity.
Qed.

Lemma getitem_shape_length (s : list nat) :
  3 <= length s ->
  length (getitem_shape [Slice; Slice; NewAxis; Slice] s) = S (length s).
Proof.
  destruct s as [|a [|b [|c s]]]; simpl; intros; try lia.
Qed.

Lemma replace_last_length (l : list nat) (x : nat) :
  l <> [] -> length (removelast l ++ [x]) = length l.
Proof.
  intros Hl. rewrite (app_removelast_last 0 Hl) at 2.
  rewrite !length_app. reflexivity.
Qed.

End ShapeFacts.

Section RunFacts.
Context {R : Type} `{ScalarOps R} `{Collaborators R}.
Variable self : W -> ProteusFeatureEmbedder.t R.

Lemma tensor_add_shape (a b z : tensor R) :
  tensor_add a b = Ok z ->
  broadcast_shapes (shape a) (shape b) = Some (shape z).
Proof.
  unfold tensor_add. destruct (broadcast_shapes _ _); [|discriminate].
  intros E. now injection E as <-.
Qed.

Lemma getitem_shape_of (t u : tensor R) (ix : list index_item) :
  getitem t ix = Ok u -> shape u = getitem_shape ix (shape t).
Proof.
  unfold getitem. destruct (_ <=? _); [|discriminate].
  intros E. now injection E as <-.
Qed.

(** The steps of a call that returns. *)
Lemma forward_inv (features : Features) (atom_mask token_mask : option Mask)
    (w w2 : W) (out : ProteusFeatures R) :
  ProteusFeatureEmbedder.forward self features atom_mask token_mask w = (Ok out, w2) ->
  exists w1 ci ri zz rel,
    InputFeatureEmbedder.forward (ife_of self) features atom_mask w =
      (Ok (s_inputs out), w1) /\
    Linear_forward (ProteusFeatureEmbedder.linear_s_init (self w1)) (s_inputs out) =
      Ok (s_trunk out) /\
    getitem (s_inputs out) [Slice; Slice; NewAxis; Slice] = Ok ci /\
    Linear_forward (ProteusFeatureEmbedder.linear_z_col (self w1)) ci =
      Ok (Linear_apply (ProteusFeatureEmbedder.linear_z_col (self w1)) ci) /\
    getitem (s_inputs out) [Slice; NewAxis; Slice; Slice] = Ok ri /\
    tensor_add (Linear_apply (ProteusFeatureEmbedder.linear_z_col (self w1)) ci)
               (Linear_apply (ProteusFeatureEmbedder.linear_z_row (self w1)) ri)
      = Ok zz /\
    RelativePositionEncoding_forward
      (ProteusFeatureEmbedder.relative_pos_encoder (self w1))
      features token_mask w1 = (Ok rel, w2) /\
    tensor_add zz rel = Ok (z_trunk out).
Proof.
  unfold ProteusFeatureEmbedder.forward. unfold bind at 1.
  destruct (InputFeatureEmbedder.forward _ features atom_mask w)
    as [[p|e] w1] eqn:Ein; [|discriminate].
  unfold bind, attr, lift, ret.
  destruct (Linear_forward _ p) as [st|] eqn:Est; [|discriminate].
  destruct (getitem p [Slice; Slice; NewAxis; Slice]) as [ci|] eqn:Eci; [|discriminate].
  destruct (Linear_forward _ ci) as [col|] eqn:Ecol; [|discriminate].
  destruct (getitem p [Slice; NewAxis; Slice; Slice]) as [ri|] eqn:Eri; [|discriminate].
  destruct (Linear_forward _ ri) as [row|] eqn:Erow; [|discriminate].
  destruct (tensor_add col row) as [zz|] eqn:Ezz; [|discriminate].
  destruct (RelativePositionEncoding_forward _ features token_mask w1)
    as [[rel|e] w2'] eqn:Erel; [|discriminate].
  destruct (tensor_add zz rel) as [z|] eqn:Ez; [|discriminate].
  intros E. injection E as <- <-. simpl.
  destruct (Linear_forward_inv _ _ Ecol) as [-> _].
  destruct (Linear_forward_inv _ _ Erow) as [-> _].
  exists w1, ci, ri, zz, rel. rewrite Ecol. repeat split; assumption.
Qed.

(** What is left of a call once the encoder has returned. *)
Lemma forward_from_encoder (features : Features)
    (atom_mask : option Mask) (w w1 : W)
    (output : AtomAttentionEncoderOutput) :
  AtomAttentionEncoder_forward
    (InputFeatureEmbedder.encoder
       (ProteusFeatureEmbedder.input_feature_embedder (self w)))
    features atom_mask w = (Ok output, w1) ->
  InputFeatureEmbedder.forward (ife_of self) features atom_mask w =
    (Ok (token_single output), w1).
Proof. intros E. now rewrite input_forward_eq, E. Qed.

End RunFacts.

Ltac enter_forward Hin :=
  unfold ProteusFeatureEmbedder.forward; unfold bind at 1;
  erewrite forward_from_encoder by exact Hin;
  unfold bind, attr, lift, ret.

Section Behaviour.
Context {R : Type} `{ScalarOps R} `{Collaborators R}.
Variable self : W -> ProteusFeatureEmbedder.t R.

(** X2. An exception of the encoder leaves both [forward] methods as
    it is, in the world the encoder left: nothing is projected and the
    relative position encoder is not called. *)
Theorem encoder_exception_propagates
    (features : Features) (atom_mask token_mask : option Mask)
    (w w1 : W) (e : exn) :
  AtomAttentionEncoder_forward
    (InputFeatureEmbedder.encoder
       (ProteusFeatureEmbedder.input_feature_embedder (self w)))
    features atom_mask w = (Err e, w1) ->
  InputFeatureEmbedder.forward (ife_of self) features atom_mask w = (Err e, w1) /\
  ProteusFeatureEmbedder.forward self features atom_mask token_mask w = (Err e, w1).
Proof.
  intros E.
  assert (Ein : InputFeatureEmbedder.forward (ife_of self) features atom_mask w
                = (Err e, w1)) by now rewrite input_forward_eq, E.
  split; [exact Ein|].
  unfold ProteusFeatureEmbedder.forward. unfold bind at 1. now rewrite Ein.
Qed.

(** X3. A per-token tensor of one or two dimensions whose last
    dimension is c_token passes [linear_s_init], and the indexing
    [p[:, :, None, :]] then raises IndexError; the relative position
    encoder is not called. *)
Theorem short_tensor_raises_index_error
    (features : Features) (atom_mask token_mask : option Mask)
    (w w1 : W) (output : AtomAttentionEncoderOutput) (pre : list nat) :
  let p := token_single output in
  let m := self w1 in
  AtomAttentionEncoder_forward
    (InputFeatureEmbedder.encoder
       (ProteusFeatureEmbedder.input_feature_embedder (self w)))
    features atom_mask w = (Ok output, w1) ->
  constructed m ->
  shape p = pre ++ [ProteusFeatureEmbedder.c_token m] ->
  length pre < 2 ->
  ProteusFeatureEmbedder.forward self features atom_mask token_mask w =
    (Err IndexError, w1).
Proof.
  intros p m Henc Hm Hp Hl.
  destruct (constructed_layers Hm) as ((Hsi & _) & _). fold m in Hsi.
  enter_forward Henc. fold p m.
  rewrite (Linear_forward_ok _ _ pre) by (rewrite Hsi; exact Hp).
  rewrite getitem_too_many; [reflexivity|].
  unfold ndim. rewrite Hp, length_app.
  change (count_slices [Slice; Slice; NewAxis; Slice]) with 3. simpl. lia.
Qed.

(** X4. A per-token tensor whose size does not end with c_token (a
    scalar tensor included) raises the RuntimeError of
    [linear_s_init]; the relative position encoder is not called. *)
Theorem wrong_width_raises_runtime_error
    (features : Features) (atom_mask token_mask : option Mask)
    (w w1 : W) (output : AtomAttentionEncoderOutput) :
  let p := token_single output in
  let m := self w1 in
  AtomAttentionEncoder_forward
    (InputFeatureEmbedder.encoder
       (ProteusFeatureEmbedder.input_feature_embedder (self w)))
    features atom_mask w = (Ok output, w1) ->
  constructed m ->
  (forall pre, shape p <> pre ++ [ProteusFeatureEmbedder.c_token m]) ->
  ProteusFeatureEmbedder.forward self features atom_mask token_mask w =
    (Err RuntimeError, w1).
Proof.
  intros p m Henc Hm Hp.
  destruct (constructed_layers Hm) as ((Hsi & _) & _). fold m in Hsi.
  enter_forward Henc. fold p m.
  rewrite Linear_forward_wrong_width; [reflexivity|].
  now rewrite Hsi.
Qed.

(** X5. An exception of the relative position encoder, raised after
    the projections are computed, leaves [forward] as it is, in the
    world the relative position encoder left. *)
Theorem bias_exception_propagates
    (features : Features) (atom_mask token_mask : option Mask)
    (w w1 w2 : W) (output : AtomAttentionEncoderOutput) (e : exn)
    (bs n : nat) :
  let p := token_single output in
  let m := self w1 in
  AtomAttentionEncoder_forward
    (InputFeatureEmbedder.encoder
       (ProteusFeatureEmbedder.input_feature_embedder (self w)))
    features atom_mask w = (Ok output, w1) ->
  constructed m ->
  shape p = [bs; n; ProteusFeatureEmbedder.c_token m] ->
  RelativePositionEncoding_forward
    (ProteusFeatureEmbedder.relative_pos_encoder m)
    features token_mask w1 = (Err e, w2) ->
  ProteusFeatureEmbedder.forward self features atom_mask token_mask w =
    (Err e, w2).
Proof.
  intros p m Henc Hm Hp Hrel.
  destruct (constructed_layers Hm)
    as ((Hsi & _) & (Hci & Hco & _) & (Hri & Hro & _) & _).
  fold m in Hsi, Hci, Hco, Hri, Hro.
  destruct (outer_sum_ok _ _ _ Hp Hci Hri Hco Hro)
    as (ci & ri & zz & Eci & Elc & Eri & Elr & Ezz & _).
  enter_forward Henc. fold p m.
  rewrite (Linear_forward_ok _ _ [bs; n]) by (rewrite Hsi; exact Hp).
  rewrite Eci, Elc, Eri, Elr, Ezz. unfold m in *. rewrite Hrel. reflexivity.
Qed.

(** X6. In every call that returns, for a module as the constructor
    builds it, s_inputs has at least three dimensions and the last one
    is c_token, s_trunk has the size of s_inputs, and z_trunk has at
    least four dimensions. *)
Theorem returned_sizes
    (features : Features) (atom_mask token_mask : option Mask)
    (w w2 : W) (out : ProteusFeatures R) :
  (forall v, constructed (self v)) ->
  ProteusFeatureEmbedder.forward self features atom_mask token_mask w = (Ok out, w2) ->
  exists w1 pre,
    InputFeatureEmbedder.forward (ife_of self) features atom_mask w =
      (Ok (s_inputs out), w1) /\
    shape (s_inputs out) = pre ++ [ProteusFeatureEmbedder.c_token (self w1)] /\
    2 <= length pre /\
    shape (s_trunk out) = shape (s_inputs out) /\
    4 <= ndim (z_trunk out).
Proof.
  intros Hall E.
  destruct (forward_inv _ _ _ _ _ E)
    as (w1 & ci & ri & zz & rel & Ein & Est & Eci & Ecol & Eri & Ezz & Erel & Ez).
  destruct (constructed_layers (Hall w1)) as ((Hsi & Hso & _) & _).
  destruct (Linear_forward_inv _ _ Est) as [Es Hp]. rewrite Hsi in Hp.
  pose proof (getitem_ok_ndim _ _ Eci) as Hn.
  change (count_slices [Slice; Slice; NewAxis; Slice]) with 3 in Hn.
  unfold ndim in Hn.
  exists w1, (removelast (shape (s_inputs out))).
  split; [exact Ein|]. split; [exact Hp|]. split.
  { rewrite Hp, length_app in Hn. simpl in Hn. lia. }
  split.
  { rewrite Es. simpl. rewrite Hso. symmetry. exact Hp. }
  apply tensor_add_shape, broadcast_shapes_length in Ez.
  apply tensor_add_shape, broadcast_shapes_length in Ezz.
  unfold ndim. rewrite Ez, Ezz. simpl shape.
  rewrite replace_last_length.
  - rewrite (getitem_shape_of _ _ Eci), getitem_shape_length by exact Hn. lia.
  - rewrite (getitem_shape_of _ _ Eci).
    destruct (shape (s_inputs out)) as [|a [|b [|c s]]]; simpl in *;
      try lia; discriminate.
Qed.

(** X7. The token mask reaches only the relative position encoder:
    two calls from the same world that differ in the token mask only
    and both return give the same s_inputs and the same s_trunk. *)
Theorem token_mask_only_reaches_pair
    (features : Features) (atom_mask token_mask token_mask' : option Mask)
    (w w2 w2' : W) (out out' : ProteusFeatures R) :
  ProteusFeatureEmbedder.forward self features atom_mask token_mask w = (Ok out, w2) ->
  ProteusFeatureEmbedder.forward self features atom_mask token_mask' w = (Ok out', w2') ->
  s_inputs out = s_inputs out' /\ s_trunk out = s_trunk out'.
Proof.
  intros E E'.
  destruct (forward_inv _ _ _ _ _ E) as (w1 & _ & _ & _ & _ & Ein & Est & _).
  destruct (forward_inv _ _ _ _ _ E') as (w1' & _ & _ & _ & _ & Ein' & Est' & _).
  rewrite Ein in Ein'. injection Ein' as Ep Ew.
  rewrite <- Ep, <- Ew in Est'. rewrite Est in Est'. injection Est' as Es.
  split; assumption.
Qed.


(** X10. An entry of z_trunk depends on the per-token tensor through
    the tokens i and j of its batch element only, and an entry of
    s_trunk through its token only: two calls whose per-token tensors
    agree on these tokens (they may differ elsewhere, and in the number
    of tokens) and whose biases agree at the pair give the same
    entries. *)
Theorem pair_entry_depends_on_its_tokens
    (features features' : Features)
    (atom_mask token_mask atom_mask' token_mask' : option Mask)
    (w w1 w2 w' w1' w2' : W) (output output' : AtomAttentionEncoderOutput)
    (rel rel' : tensor R) (bs n bs' n' b i j o : nat) :
  let p := token_single output in
  let p' := token_single output' in
  let m := self w1 in
  let ct := ProteusFeatureEmbedder.c_token m in
  let cp := ProteusFeatureEmbedder.c_trunk_pair m in
  collaborators_return self features atom_mask token_mask w output w1 rel w2 ->
  collaborators_return self features' atom_mask' token_mask' w' output' w1' rel' w2' ->
  self w1' = m ->
  constructed m ->
  shape p = [bs; n; ct] ->
  shape p' = [bs'; n'; ct] ->
  broadcast_shapes [bs; n; n; cp] (shape rel) = Some [bs; n; n; cp] ->
  broadcast_shapes [bs'; n'; n'; cp] (shape rel') = Some [bs'; n'; n'; cp] ->
  b < bs -> b < bs' -> i < n -> i < n' -> j < n -> j < n' -> o < cp ->
  (forall k, k < ct -> data p [b; i; k] = data p' [b; i; k]) ->
  (forall k, k < ct -> data p [b; j; k] = data p' [b; j; k]) ->
  bget rel [b; i; j; o] = bget rel' [b; i; j; o] ->
  exists out out',
    ProteusFeatureEmbedder.forward self features atom_mask token_mask w =
      (Ok out, w2) /\
    ProteusFeatureEmbedder.forward self features' atom_mask' token_mask' w' =
      (Ok out', w2') /\
    data (z_trunk out) [b; i; j; o] = data (z_trunk out') [b; i; j; o] /\
    forall c, data (s_trunk out) [b; i; c] = data (s_trunk out') [b; i; c].
Proof.
  intros p p' m ct cp Hc Hc' Hself Hm Hp Hp' Hs Hs'
    Hb Hb' Hi Hi' Hj Hj' Ho Hti Htj Hrel.
  assert (Hm' : constructed (self w1')) by now rewrite Hself.
  fold m ct in Hp.
  assert (Hp'' : shape (token_single output') =
                 [bs'; n'; ProteusFeatureEmbedder.c_token (self w1')])
    by now rewrite Hself.
  assert (Hs'' : broadcast_shapes
                   [bs'; n'; n'; ProteusFeatureEmbedder.c_trunk_pair (self w1')]
                   (shape rel') =
                 Some [bs'; n'; n'; ProteusFeatureEmbedder.c_trunk_pair (self w1')])
    by now rewrite Hself.
  destruct (forward_ok Hc Hm Hp Hs) as (zz & z & E & Szz & Dzz & Sz & Dz).
  destruct (forward_ok Hc' Hm' Hp'' Hs'') as (zz' & z' & E' & Szz' & Dzz' & Sz' & Dz').
  rewrite Hself in E', Szz', Dzz'. fold p p' m ct cp in E, E', Szz, Szz', Dzz, Dzz'.
  destruct (constructed_layers Hm)
    as ((Hsi & _ & Hsb) & (Hci & _ & Hcb) & (Hri & _ & Hrb) & _).
  fold m ct in Hsi, Hsb, Hci, Hcb, Hri, Hrb.
  assert (Hproj : forall (l : Linear R) t c,
            in_features l = ct -> bias l = None ->
            (forall k, k < ct -> data p [b; t; k] = data p' [b; t; k]) ->
            proj l p b t c = proj l p' b t c).
  { intros l t c Hin Hbias Ht. unfold proj. simpl. rewrite Hbias, Hin.
    apply dot_ext; auto. }
  eexists. eexists. split; [exact E|]. split; [exact E'|]. simpl. split.
  - rewrite Dz, Dz'.
    rewrite (bget_in_range zz), (bget_in_range zz')
      by (rewrite ?Szz, ?Szz'; simpl; tauto).
    rewrite Dzz, Dzz' by assumption.
    rewrite (Hproj _ i o Hci Hcb Hti), (Hproj _ j o Hri Hrb Htj), Hrel.
    reflexivity.
  - intros c. exact (Hproj _ i c Hsi Hsb Hti).
Qed.

Hypothesis Rth : ring_theory rO rI radd rmul rsub ropp (@eq R).

(** X9. None of the three layers adds a bias of its own: when the
    per-token tensor is zero everywhere, s_trunk is zero and z_trunk
    is the relative position bias. *)
Theorem zero_tokens_give_bias
    (features : Features) (atom_mask token_mask : option Mask)
    (w w1 w2 : W) (output : AtomAttentionEncoderOutput) (rel : tensor R)
    (bs n : nat) :
  let p := token_single output in
  let m := self w1 in
  let cp := ProteusFeatureEmbedder.c_trunk_pair m in
  collaborators_return self features atom_mask token_mask w output w1 rel w2 ->
  constructed m ->
  shape p = [bs; n; ProteusFeatureEmbedder.c_token m] ->
  broadcast_shapes [bs; n; n; cp] (shape rel) = Some [bs; n; n; cp] ->
  (forall idx, data p idx = rO) ->
  exists out,
    ProteusFeatureEmbedder.forward self features atom_mask token_mask w =
      (Ok out, w2) /\
    (forall b i c, data (s_trunk out) [b; i; c] = rO) /\
    (forall b i j o, b < bs -> i < n -> j < n -> o < cp ->
       data (z_trunk out) [b; i; j; o] = bget rel [b; i; j; o]).
Proof.
  intros p m cp Hc Hm Hp Hs Hz.
  destruct (forward_ok Hc Hm Hp Hs) as (zz & z & E & Szz & Dzz & Sz & Dz).
  fold p m cp in E, Szz, Dzz, Sz, Dz.
  destruct (constructed_layers Hm)
    as ((_ & _ & Hsb) & (_ & _ & Hcb) & (_ & _ & Hrb) & _).
  fold m in Hsb, Hcb, Hrb.
  assert (Hproj : forall (l : Linear R) b t c,
            bias l = None -> proj l p b t c = rO).
  { intros l b t c Hbias. unfold proj. simpl. rewrite Hbias.
    apply (dot_zero Rth). intros k _. apply Hz. }
  eexists. split; [exact E|]. simpl. split.
  - intros b i c. exact (Hproj _ b i c Hsb).
  - intros b i j o Hb Hi Hj Ho. rewrite Dz.
    rewrite bget_in_range by (rewrite Szz; simpl; tauto).
    rewrite Dzz by assumption.
    rewrite (Hproj _ b i o Hcb), (Hproj _ b j o Hrb).
    now rewrite !(radd_0_l Rth).
Qed.

(** X11. Whatever the bias is, the mixed second difference
    z[i, j] - z[k, j] - (z[i, l] - z[k, l]) of z_trunk is the one of
    the bias: the two projections contribute an outer sum, which has
    none. *)
Theorem pair_mixed_difference_is_bias
    (features : Features) (atom_mask token_mask : option Mask)
    (w w1 w2 : W) (output : AtomAttentionEncoderOutput) (rel : tensor R)
    (bs n : nat) :
  let p := token_single output in
  let m := self w1 in
  let cp := ProteusFeatureEmbedder.c_trunk_pair m in
  collaborators_return self features atom_mask token_mask w output w1 rel w2 ->
  constructed m ->
  shape p = [bs; n; ProteusFeatureEmbedder.c_token m] ->
  broadcast_shapes [bs; n; n; cp] (shape rel) = Some [bs; n; n; cp] ->
  exists out,
    ProteusFeatureEmbedder.forward self features atom_mask token_mask w =
      (Ok out, w2) /\
    forall b i k j l o,
      b < bs -> i < n -> k < n -> j < n -> l < n -> o < cp ->
      rsub (rsub (data (z_trunk out) [b; i; j; o]) (data (z_trunk out) [b; k; j; o]))
           (rsub (data (z_trunk out) [b; i; l; o]) (data (z_trunk out) [b; k; l; o])) =
      rsub (rsub (bget rel [b; i; j; o]) (bget rel [b; k; j; o]))
           (rsub (bget rel [b; i; l; o]) (bget rel [b; k; l; o])).
Proof.
  intros p m cp Hc Hm Hp Hs.
  destruct (forward_ok Hc Hm Hp Hs) as (zz & z & E & Szz & Dzz & Sz & Dz).
  fold p m cp in E, Szz, Dzz, Sz, Dz.
  eexists. split; [exact E|]. simpl.
  intros b i k j l o Hb Hi Hk Hj Hl Ho.
  rewrite !Dz.
  rewrite !bget_in_range with (t := zz) by (rewrite Szz; simpl; tauto).
  rewrite !Dzz by assumption.
  apply (mixed_difference Rth).
Qed.

End Behaviour.

Section Construction.
Context {R : Type} `{ScalarOps R}.

(** X1. Whatever arguments are omitted, a [ProteusFeatureEmbedder]
    holds the inner [InputFeatureEmbedder] that the constructor of
    that class builds from the same arguments (the two signatures have
    the same defaults), and the encoder inside receives each of the
    twelve hyperparameters of the outer module unchanged, with
    trunk conditioning off. *)
Theorem constructors_agree (n_tokens : nat)
    (c_token c_atom c_atompair c_trunk_pair num_blocks num_heads : option nat)
    (dropout : option Q) (n_queries n_keys : option nat)
    (device dtype : option (option string))
    (w_s w_col w_row : list nat -> R) :
  let m := ProteusFeatureEmbedder.new n_tokens c_token c_atom c_atompair
             c_trunk_pair num_blocks num_heads dropout n_queries n_keys
             device dtype w_s w_col w_row in
  let e := InputFeatureEmbedder.encoder
             (ProteusFeatureEmbedder.input_feature_embedder m) in
  ProteusFeatureEmbedder.input_feature_embedder m =
    InputFeatureEmbedder.new n_tokens c_token c_atom c_atompair
      c_trunk_pair num_blocks num_heads dropout n_queries n_keys device dtype /\
  constructed m /\
  input_constructed (ProteusFeatureEmbedder.input_feature_embedder m) /\
  AtomAttentionEncoder.trunk_conditioning e = false /\
  (AtomAttentionEncoder.n_tokens e, AtomAttentionEncoder.c_token e,
   AtomAttentionEncoder.c_atom e, AtomAttentionEncoder.c_atompair e,
   AtomAttentionEncoder.c_trunk_pair e, AtomAttentionEncoder.num_blocks e) =
  (ProteusFeatureEmbedder.n_tokens m, ProteusFeatureEmbedder.c_token m,
   ProteusFeatureEmbedder.c_atom m, ProteusFeatureEmbedder.c_atompair m,
   ProteusFeatureEmbedder.c_trunk_pair m, ProteusFeatureEmbedder.num_blocks m) /\
  (AtomAttentionEncoder.num_heads e, AtomAttentionEncoder.dropout e,
   AtomAttentionEncoder.n_queries e, AtomAttentionEncoder.n_keys e,
   AtomAttentionEncoder.device e, AtomAttentionEncoder.dtype e) =
  (ProteusFeatureEmbedder.num_heads m, ProteusFeatureEmbedder.dropout m,
   ProteusFeatureEmbedder.n_queries m, ProteusFeatureEmbedder.n_keys m,
   ProteusFeatureEmbedder.device m, ProteusFeatureEmbedder.dtype m).
Proof.
  intros m e. repeat split.
  exists w_s, w_col, w_row. reflexivity.
Qed.

End Construction.

(** * The further statements at work *)

Lemma encoder_return_here (w : Example.world) :
  @AtomAttentionEncoder_forward Z Example.collaborators
    (InputFeatureEmbedder.encoder
       (ProteusFeatureEmbedder.input_feature_embedder (Example.module_ w)))
    tt None w = (Ok (Example.tokens w), Example.advance w).
Proof. reflexivity. Qed.

Lemma width_three_is_not_two (pre : list nat) : [1; 2; 3] <> pre ++ [2].
Proof.
  intros E. apply (f_equal (fun l => last l 0)) in E.
  rewrite last_last in E. discriminate.
Qed.

Lemma encoder_exception_propagates_witness :
  Cases.run_raising (Some (OtherError "encoder")) None Example.w_full =
    (Err (OtherError "encoder"), Example.advance Example.w_full).
Proof.
  exact (proj2 (@encoder_exception_propagates Z Z_scalar
                  (Cases.raising (Some (OtherError "encoder")) None)
                  Example.module_ tt None None Example.w_full
                  (Example.advance Example.w_full) (OtherError "encoder")
                  eq_refl)).
Defined.

Lemma short_tensor_raises_index_error_witness :
  Example.run Cases.w_flat = (Err IndexError, Example.advance Cases.w_flat).
Proof.
  exact (@short_tensor_raises_index_error Z Z_scalar Example.collaborators
           Example.module_ tt None None Cases.w_flat _ _ [2]
           (encoder_return_here Cases.w_flat) small_constructed
           eq_refl (le_n 2)).
Defined.

Lemma wrong_width_raises_runtime_error_witness :
  Example.run Cases.w_wide = (Err RuntimeError, Example.advance Cases.w_wide).
Proof.
  exact (@wrong_width_raises_runtime_error Z Z_scalar Example.collaborators
           Example.module_ tt None None Cases.w_wide _ _
           (encoder_return_here Cases.w_wide) small_constructed
           width_three_is_not_two).
Defined.

Lemma bias_exception_propagates_witness :
  Cases.run_raising None (Some (OtherError "bias")) Example.w_full =
    (Err (OtherError "bias"), Example.advance (Example.advance Example.w_full)).
Proof.
  exact (@bias_exception_propagates Z Z_scalar
           (Cases.raising None (Some (OtherError "bias")))
           Example.module_ tt None None Example.w_full
           (Example.advance Example.w_full)
           (Example.advance (Example.advance Example.w_full))
           Example.two_tokens (OtherError "bias") 1 2
           eq_refl small_constructed eq_refl eq_refl).
Defined.

Lemma returned_sizes_witness :
  exists out w1 w2,
    @ProteusFeatureEmbedder.forward Z Z_scalar Example.collaborators
      (fun _ => Example.small) tt None None Example.w_full = (Ok out, w2) /\
    @InputFeatureEmbedder.forward Z Example.collaborators
      (fun _ => ProteusFeatureEmbedder.input_feature_embedder Example.small)
      tt None Example.w_full = (Ok (s_inputs out), w1) /\
    shape (s_inputs out) = [1; 2; 2] /\
    shape (s_trunk out) = shape (s_inputs out) /\
    4 <= ndim (z_trunk out).
Proof.
  assert (E : exists out w2,
             @ProteusFeatureEmbedder.forward Z Z_scalar Example.collaborators
               (fun _ => Example.small) tt None None Example.w_full = (Ok out, w2) /\
             shape (s_inputs out) = [1; 2; 2]).
  { eexists. eexists. split; reflexivity. }
  destruct E as (out & w2 & E & Ep).
  destruct (@returned_sizes Z Z_scalar Example.collaborators
              (fun _ => Example.small) tt None None Example.w_full w2 out
              (fun _ => small_constructed) E)
    as (w1 & pre & Ein & _ & _ & Es & Hz).
  exists out, w1, w2.
  split; [exact E|]. split; [exact Ein|]. split; [exact Ep|].
  split; [exact Es|exact Hz].
Defined.

Lemma token_mask_only_reaches_pair_witness :
  exists out out' w2 w2',
    @ProteusFeatureEmbedder.forward Z Z_scalar Example.collaborators
      Example.module_ tt None None Example.w_full = (Ok out, w2) /\
    @ProteusFeatureEmbedder.forward Z Z_scalar Example.collaborators
      Example.module_ tt None (Some tt) Example.w_full = (Ok out', w2') /\
    s_inputs out = s_inputs out' /\ s_trunk out = s_trunk out'.
Proof.
  assert (E : exists out w2,
             @ProteusFeatureEmbedder.forward Z Z_scalar Example.collaborators
               Example.module_ tt None None Example.w_full = (Ok out, w2))
    by (eexists; eexists; reflexivity).
  assert (E' : exists out w2,
             @ProteusFeatureEmbedder.forward Z Z_scalar Example.collaborators
               Example.module_ tt None (Some tt) Example.w_full = (Ok out, w2))
    by (eexists; eexists; reflexivity).
  destruct E as (out & w2 & E). destruct E' as (out' & w2' & E').
  exists out, out', w2, w2'.
  split; [exact E|]. split; [exact E'|].
  exact (@token_mask_only_reaches_pair Z Z_scalar Example.collaborators
           Example.module_ tt None None (Some tt) Example.w_full
           w2 w2' out out' E E').
Defined.


Lemma pair_entry_depends_on_its_tokens_witness :
  exists out out',
    Example.run Example.w_full =
      (Ok out, Example.advance (Example.advance Example.w_full)) /\
    Example.run Cases.w_other =
      (Ok out', Example.advance (Example.advance Cases.w_other)) /\
    data (Example.tokens Example.w_full) [0; 1; 0] <>
    data (Example.tokens Cases.w_other) [0; 1; 0] /\
    data (z_trunk out) [0; 0; 0; 0] = data (z_trunk out') [0; 0; 0; 0] /\
    data (s_trunk out) [0; 0; 1] = data (s_trunk out') [0; 0; 1].
Proof.
  assert (Ht : forall k, k < 2 ->
            data Example.two_tokens [0; 0; k] = data Cases.other_tokens [0; 0; k]).
  { intros [|[|k]] Hk; [reflexivity|reflexivity|lia]. }
  destruct (@pair_entry_depends_on_its_tokens Z Z_scalar Example.collaborators
              Example.module_ tt tt None None None None
              Example.w_full _ _ Cases.w_other _ _ _ _ _ _ 1 2 1 2 0 0 0 0
              (collaborators_return_here Example.w_full)
              (collaborators_return_here Cases.w_other)
              eq_refl small_constructed eq_refl eq_refl eq_refl eq_refl
              (le_n 1) (le_n 1) (le_S 1 1 (le_n 1)) (le_S 1 1 (le_n 1))
              (le_S 1 1 (le_n 1)) (le_S 1 1 (le_n 1)) (le_n 1)
              Ht Ht eq_refl)
    as (out & out' & E & E' & Hz & Hs).
  exists out, out'. split; [exact E|]. split; [exact E'|].
  split; [vm_compute; discriminate|]. split; [exact Hz|exact (Hs 1)].
Defined.

Lemma zero_tokens_give_bias_witness :
  exists out,
    Example.run Cases.w_zero_tokens =
      (Ok out, Example.advance (Example.advance Cases.w_zero_tokens)) /\
    data (s_trunk out) [0; 1; 0] = 0%Z /\
    data (z_trunk out) [0; 1; 0; 0] = 200%Z.
Proof.
  destruct (@zero_tokens_give_bias Z Z_scalar Example.collaborators
              Example.module_ Zth tt None None Cases.w_zero_tokens _ _ _ _ 1 2
              (collaborators_return_here Cases.w_zero_tokens)
              small_constructed eq_refl eq_refl (fun _ => eq_refl))
    as (out & E & Hs & Hz).
  exists out. split; [exact E|]. split; [exact (Hs 0 1 0)|].
  rewrite Hz by (vm_compute; lia). reflexivity.
Defined.

Lemma pair_mixed_difference_is_bias_witness :
  exists out,
    Example.run Cases.w_product =
      (Ok out, Example.advance (Example.advance Cases.w_product)) /\
    Z.sub (Z.sub (data (z_trunk out) [0; 0; 0; 0]) (data (z_trunk out) [0; 1; 0; 0]))
          (Z.sub (data (z_trunk out) [0; 0; 1; 0]) (data (z_trunk out) [0; 1; 1; 0]))
    = 1%Z.
Proof.
  destruct (@pair_mixed_difference_is_bias Z Z_scalar Example.collaborators
              Example.module_ Zth tt None None Cases.w_product _ _ _ _ 1 2
              (collaborators_return_here Cases.w_product)
              small_constructed eq_refl eq_refl)
    as (out & E & D).
  exists out. split; [exact E|].
  exact (D 0 0 1 0 1 0 (le_n 1) (le_S 1 1 (le_n 1)) (le_n 2)
           (le_S 1 1 (le_n 1)) (le_n 2) (le_n 1)).
Defined.
